(** * PostOrderBodyParser: classification and decoding of posted orders

    A shallow embedding of [PostOrderBodyParser] (the order-submission
    parser of the UniswapX service) together with the properties of its
    dispatch, of its legacy custom-reactor fallback and of the values and
    failures it hands back to its caller.

    The parser is exception driven and talks to three collaborators: the
    UniswapX SDK (four parsers and two classifiers), the logger and the
    process environment.  Exceptions are modelled by an outcome type, the
    collaborators' calls are recorded in a trace, and the whole parser runs
    in the small writer-and-exception monad [M] defined below. *)

From Stdlib Require Import String Ascii List ZArith Bool Lia.
Import ListNotations.
Local Open Scope string_scope.
Local Open Scope Z_scope.
Local Open Scope list_scope.

(** ** JavaScript strings

    Reactor addresses are hexadecimal strings; [toLowerCase] is modelled on
    ASCII text, where [String.prototype.toLowerCase] maps 'A'..'Z' to
    'a'..'z' and leaves every other character alone. *)

Definition is_upper (c : ascii) : bool :=
  let n := nat_of_ascii c in (Nat.leb 65 n && Nat.leb n 90)%bool.

Definition lower_ascii (c : ascii) : ascii :=
  if is_upper c then ascii_of_nat (nat_of_ascii c + 32) else c.

Fixpoint toLowerCase (s : string) : string :=
  match s with
  | EmptyString => EmptyString
  | String c s' => String (lower_ascii c) (toLowerCase s')
  end.

(** Case-insensitive comparison written independently of [toLowerCase]:
    two strings match when they have the same length and agree character
    by character, where a letter agrees with itself in either case. *)

Definition same_letter (a b : ascii) : bool :=
  let x := nat_of_ascii a in
  let y := nat_of_ascii b in
  (Nat.eqb x y
   || (is_upper a && Nat.eqb (x + 32) y)
   || (is_upper b && Nat.eqb (y + 32) x))%bool.

Fixpoint eq_ignore_case (s t : string) : bool :=
  match s, t with
  | EmptyString, EmptyString => true
  | String a s', String b t' => (same_letter a b && eq_ignore_case s' t')%bool
  | _, _ => false
  end.

(** ** The SDK's order types

    The four members [fromPostRequest] switches over. *)

Inductive OrderType := Dutch | Relay | Dutch_V2 | Limit.

Definition OrderType_eqb (a b : OrderType) : bool :=
  match a, b with
  | Dutch, Dutch | Relay, Relay | Dutch_V2, Dutch_V2 | Limit, Limit => true
  | _, _ => false
  end.

(** ** The collaborators

    The SDK is external to the repository; the parser is verified against
    an arbitrary SDK.  An SDK call either returns or throws, hence the sum
    types.  TypeScript casts ([order as SDKDutchOrder]) are erased at run
    time, so one type of decoded SDK orders serves all four parsers. *)

Record Sdk := {
  SdkOrder : Type;
  SdkError : Type;
  (* new UniswapXOrderParser().parseOrder(encodedOrder, chainId) *)
  uniswapXParser_parseOrder : string -> Z -> SdkError + SdkOrder;
  (* new UniswapXOrderParser().getOrderType(order) *)
  uniswapXParser_getOrderType : SdkOrder -> SdkError + OrderType;
  (* new RelayOrderParser().parseOrder(encodedOrder, chainId) *)
  relayParser_parseOrder : string -> Z -> SdkError + SdkOrder;
  (* new RelayOrderParser().getOrderType(order) *)
  relayParser_getOrderType : SdkOrder -> SdkError + OrderType;
  (* CosignedV2DutchOrder.parse(encodedOrder, chainId) *)
  CosignedV2DutchOrder_parse : string -> Z -> SdkError + SdkOrder;
  (* DutchOrder.parse(encodedOrder, chainId) *)
  SDKDutchOrder_parse : string -> Z -> SdkError + SdkOrder;
  (* order.info.reactor *)
  info_reactor : SdkOrder -> string
}.

(** [process.env]: the one setting the parser reads. *)
Record ProcessEnv := {
  CUSTOM_REACTOR_ADDRESS : option string
}.

(** [!customReactorAddress]: true of [undefined] and of the empty string. *)
Definition js_not (v : option string) : bool :=
  match v with
  | None => true
  | Some EmptyString => true
  | Some (String _ _) => false
  end.

(** The request body ([PostOrderRequestBody]). *)
Record PostOrderRequestBody := {
  encodedOrder : string;
  signature : string;
  chainId : Z;
  orderType : option OrderType;
  quoteId : option string;
  requestId : option string
}.

Inductive SdkEntry :=
| Call_uniswapXParser_parseOrder
| Call_uniswapXParser_getOrderType
| Call_relayParser_parseOrder
| Call_relayParser_getOrderType
| Call_CosignedV2DutchOrder_parse
| Call_SDKDutchOrder_parse.

Inductive LogLevel := warn | error.

Section Parser.

Context (sdk : Sdk).
Variable env : ProcessEnv.

(** ** Errors and orders *)

(** What a [catch (err)] of the parser can receive: a failure thrown by the
    SDK, the repository's [UnexpectedOrderTypeError], or a plain [Error]
    made by the parser itself.  What the SDK throws is kept apart from the
    two errors the parser creates, whatever the SDK's error values are. *)
Inductive Exn :=
| SdkFailure (e : SdkError sdk)
| UnexpectedOrderTypeError (t : OrderType)
| Error (message : string).

(** Modelled from the spec: the model classes [DutchV1Order], [LimitOrder],
    [DutchV2Order] and [RelayOrder] (the variants of the canonical order)
    are not among the sources.  Each constructor stores the arguments of the
    corresponding [new] expression in the order they are passed; [opt4] and
    [opt5] are the two positions the parser fills with [undefined]. *)
Inductive Order :=
| DutchV1Order (inner : SdkOrder sdk) (signature : string) (chainId : Z)
               (quoteId : option string)
| LimitOrder (inner : SdkOrder sdk) (signature : string) (chainId : Z)
             (quoteId : option string)
| DutchV2Order (inner : SdkOrder sdk) (signature : string) (chainId : Z)
               (opt4 opt5 : option string)
               (quoteId : option string) (requestId : option string)
| RelayOrder (inner : SdkOrder sdk) (signature : string) (chainId : Z).

(** Modelled from the spec: the [orderType] property of the model classes,
    the tag of the canonical order. *)
Definition Order_orderType (o : Order) : OrderType :=
  match o with
  | DutchV1Order _ _ _ _ => Dutch
  | LimitOrder _ _ _ _ => Limit
  | DutchV2Order _ _ _ _ _ _ _ => Dutch_V2
  | RelayOrder _ _ _ => Relay
  end.

Definition Order_inner (o : Order) : SdkOrder sdk :=
  match o with
  | DutchV1Order i _ _ _ | LimitOrder i _ _ _
  | DutchV2Order i _ _ _ _ _ _ | RelayOrder i _ _ => i
  end.

Definition Order_signature (o : Order) : string :=
  match o with
  | DutchV1Order _ s _ _ | LimitOrder _ s _ _
  | DutchV2Order _ s _ _ _ _ _ | RelayOrder _ s _ => s
  end.

Definition Order_chainId (o : Order) : Z :=
  match o with
  | DutchV1Order _ _ c _ | LimitOrder _ _ c _
  | DutchV2Order _ _ c _ _ _ _ | RelayOrder _ _ c => c
  end.

(** The correlation ids an order holds: [None] where the constructor was
    given none. *)
Definition Order_quoteId (o : Order) : option string :=
  match o with
  | DutchV1Order _ _ _ q | LimitOrder _ _ _ q | DutchV2Order _ _ _ _ _ q _ => q
  | RelayOrder _ _ _ => None
  end.

Definition Order_requestId (o : Order) : option string :=
  match o with
  | DutchV2Order _ _ _ _ _ _ r => r
  | DutchV1Order _ _ _ _ | LimitOrder _ _ _ _ | RelayOrder _ _ _ => None
  end.

(** ** Traces and the parser monad *)

Inductive LogContext :=
| NoContext
| ParseContext (err : Exn) (encodedOrder : string) (chainId : Z)
               (signature : string)
| ReactorContext (orderReactor customReactorAddress : string).

Inductive Event :=
| Called (f : SdkEntry)
| Logged (level : LogLevel) (message : string) (ctx : LogContext).

Inductive Outcome (A : Type) :=
| Returned (a : A)
| Thrown (e : Exn).
Arguments Returned {A} a.
Arguments Thrown {A} e.

(** A computation yields the events it produced, in order, and how it
    ended. *)
Definition M (A : Type) : Type := (list Event * Outcome A)%type.

Definition ret {A} (a : A) : M A := ([], Returned a).
Definition throw {A} (e : Exn) : M A := ([], Thrown e).

Definition bind {A B} (m : M A) (k : A -> M B) : M B :=
  match m with
  | (t, Returned a) => let (t', r) := k a in (t ++ t', r)
  | (t, Thrown e) => (t, Thrown e)
  end.

(** [try { m } catch (err) { h err }] *)
Definition tryCatch {A} (m : M A) (h : Exn -> M A) : M A :=
  match m with
  | (t, Returned a) => (t, Returned a)
  | (t, Thrown e) => let (t', r) := h e in (t ++ t', r)
  end.

Definition call {A} (f : SdkEntry) (r : SdkError sdk + A) : M A :=
  ([Called f],
   match r with
   | inl e => Thrown (SdkFailure e)
   | inr a => Returned a
   end).

Definition logger_warn (message : string) (ctx : LogContext) : M unit :=
  ([Logged warn message ctx], Returned tt).

Definition logger_error (message : string) (ctx : LogContext) : M unit :=
  ([Logged error message ctx], Returned tt).

Notation "x <- m ;; k" := (bind m (fun x => k))
  (at level 61, m at next level, right associativity).
Notation "m ;;; k" := (bind m (fun _ => k))
  (at level 61, right associativity).

(** ** The parser *)

Definition tryParseRelayOrder (encodedOrder signature : string) (chainId : Z)
  : M Order :=
  tryCatch
    (order <- call Call_relayParser_parseOrder
                (relayParser_parseOrder sdk encodedOrder chainId) ;;
     orderType <- call Call_relayParser_getOrderType
                    (relayParser_getOrderType sdk order) ;;
     if OrderType_eqb orderType Relay
     then ret (RelayOrder order signature chainId)
     else throw (UnexpectedOrderTypeError orderType))
    (fun err =>
       logger_error "Unable to parse Relay order"
         (ParseContext err encodedOrder chainId signature) ;;;
       throw err).

Definition tryParseDutchV2Order (encodedOrder signature : string) (chainId : Z)
    (quoteId requestId : option string) : M Order :=
  tryCatch
    (order <- call Call_CosignedV2DutchOrder_parse
                (CosignedV2DutchOrder_parse sdk encodedOrder chainId) ;;
     ret (DutchV2Order order signature chainId None None quoteId requestId))
    (fun err =>
       logger_error "Unable to parse DutchV2 order"
         (ParseContext err encodedOrder chainId signature) ;;;
       throw err).

(** The [try] block of [tryParseDutchOrder]: the generic structural
    decoder. *)
Definition tryParseDutchOrder_try (encodedOrder signature : string)
    (chainId : Z) (quoteId : option string) : M Order :=
  order <- call Call_uniswapXParser_parseOrder
             (uniswapXParser_parseOrder sdk encodedOrder chainId) ;;
  orderType <- call Call_uniswapXParser_getOrderType
                 (uniswapXParser_getOrderType sdk order) ;;
  if OrderType_eqb orderType Limit
  then ret (LimitOrder order signature chainId quoteId)
  else if OrderType_eqb orderType Dutch
  then ret (DutchV1Order order signature chainId quoteId)
  else throw (UnexpectedOrderTypeError orderType).

(** The inner [try] block of the [catch] of [tryParseDutchOrder]: the
    legacy custom-reactor fallback.  [err] is what the generic decoder
    threw; it is only logged. *)
Definition tryParseDutchOrder_fallback (err : Exn)
    (encodedOrder signature : string) (chainId : Z)
    (quoteId : option string) : M Order :=
  logger_warn
    "Unable to parse legacy Dutch order - trying to parse with custom reactor"
    (ParseContext err encodedOrder chainId signature) ;;;
  order <- call Call_SDKDutchOrder_parse
             (SDKDutchOrder_parse sdk encodedOrder chainId) ;;
  let customReactorAddress := CUSTOM_REACTOR_ADDRESS env in
  match customReactorAddress with
  | None | Some EmptyString =>
      (* if (!customReactorAddress) *)
      logger_warn "CUSTOM_REACTOR_ADDRESS is not set" NoContext ;;;
      throw (Error "CUSTOM_REACTOR_ADDRESS is not set")
  | Some customReactorAddress =>
      if negb (String.eqb (toLowerCase (info_reactor sdk order))
                          (toLowerCase customReactorAddress))
      then
        logger_warn "Invalid reactor address"
          (ReactorContext (info_reactor sdk order) customReactorAddress) ;;;
        throw (Error "Invalid reactor address")
      else ret (DutchV1Order order signature chainId quoteId)
  end.

(** The [catch] block of [tryParseDutchOrder]: the fallback wrapped in its
    own [try]/[catch], whose handler binds a new [err]. *)
Definition tryParseDutchOrder_catch (err : Exn)
    (encodedOrder signature : string) (chainId : Z)
    (quoteId : option string) : M Order :=
  tryCatch
    (tryParseDutchOrder_fallback err encodedOrder signature chainId quoteId)
    (fun err =>
       logger_error "Unable to parse legacy Dutch order"
         (ParseContext err encodedOrder chainId signature) ;;;
       throw err).

Definition tryParseDutchOrder (encodedOrder signature : string) (chainId : Z)
    (quoteId : option string) : M Order :=
  tryCatch
    (tryParseDutchOrder_try encodedOrder signature chainId quoteId)
    (fun err =>
       tryParseDutchOrder_catch err encodedOrder signature chainId quoteId).

Definition tryParseDutchV1Order (encodedOrder signature : string) (chainId : Z)
    (quoteId : option string) : M Order :=
  tryCatch
    (order <- tryParseDutchOrder encodedOrder signature chainId quoteId ;;
     if OrderType_eqb (Order_orderType order) Dutch
     then ret order
     else throw (UnexpectedOrderTypeError (Order_orderType order)))
    (fun err =>
       logger_error "Unable to parse DutchV1 order"
         (ParseContext err encodedOrder chainId signature) ;;;
       throw err).

Definition tryParseLimitOrder (encodedOrder signature : string) (chainId : Z)
    (quoteId : option string) : M Order :=
  tryCatch
    (order <- tryParseDutchOrder encodedOrder signature chainId quoteId ;;
     if OrderType_eqb (Order_orderType order) Limit
     then ret order
     else throw (UnexpectedOrderTypeError (Order_orderType order)))
    (fun err =>
       logger_error "Unable to parse Limit order"
         (ParseContext err encodedOrder chainId signature) ;;;
       throw err).

Definition fromPostRequest (body : PostOrderRequestBody) : M Order :=
  match orderType body with
  | Some Dutch =>
      tryParseDutchV1Order (encodedOrder body) (signature body) (chainId body)
        (quoteId body)
  | Some Limit =>
      tryParseLimitOrder (encodedOrder body) (signature body) (chainId body)
        (quoteId body)
  | Some Dutch_V2 =>
      tryParseDutchV2Order (encodedOrder body) (signature body) (chainId body)
        (quoteId body) (requestId body)
  | Some Relay =>
      tryParseRelayOrder (encodedOrder body) (signature body) (chainId body)
  | None =>
      tryParseDutchOrder (encodedOrder body) (signature body) (chainId body)
        (quoteId body)
  end.

End Parser.

Arguments Returned {sdk A} a.
Arguments Thrown {sdk A} e.
Arguments SdkFailure {sdk} e.
Arguments UnexpectedOrderTypeError {sdk} t.
Arguments Error {sdk} message.
Arguments DutchV1Order {sdk} inner signature chainId quoteId.
Arguments LimitOrder {sdk} inner signature chainId quoteId.
Arguments DutchV2Order {sdk} inner signature chainId opt4 opt5 quoteId requestId.
Arguments RelayOrder {sdk} inner signature chainId.
Arguments Order_orderType {sdk} o.
Arguments Order_inner {sdk} o.
Arguments Order_signature {sdk} o.
Arguments Order_chainId {sdk} o.
Arguments Order_quoteId {sdk} o.
Arguments Order_requestId {sdk} o.
Arguments Called {sdk} f.
Arguments Logged {sdk} level message ctx.
Arguments NoContext {sdk}.
Arguments ParseContext {sdk} err encodedOrder chainId signature.
Arguments ReactorContext {sdk} orderReactor customReactorAddress.

(** ** Observations on a run *)

(** The SDK entry points a run called, in order. *)
Fixpoint sdk_calls {sdk} (t : list (Event sdk)) : list SdkEntry :=
  match t with
  | [] => []
  | Called f :: t' => f :: sdk_calls t'
  | Logged _ _ _ :: t' => sdk_calls t'
  end.

(** The two events only the fallback block produces: its opening warning
    and its call of [DutchOrder.parse]. *)
Definition is_fallback_event {sdk} (ev : Event sdk) : bool :=
  match ev with
  | Called Call_SDKDutchOrder_parse => true
  | Logged warn m _ =>
      String.eqb m
        "Unable to parse legacy Dutch order - trying to parse with custom reactor"
  | _ => false
  end.

Definition fallback_reached {sdk} (t : list (Event sdk)) : bool :=
  existsb is_fallback_event t.

(** The calls that make up the generic structural decoder. *)
Definition is_generic_call (f : SdkEntry) : bool :=
  match f with
  | Call_uniswapXParser_parseOrder | Call_uniswapXParser_getOrderType => true
  | _ => false
  end.

Definition generic_attempted {sdk} (t : list (Event sdk)) : bool :=
  existsb is_generic_call (sdk_calls t).

(** The failure kinds of the error taxonomy, and the kind of each
    exception the parser can raise. *)
Inductive ErrorKind :=
| KindUnexpectedOrderType
| KindDecodeFailure
| KindFallbackConfigurationMissing
| KindFallbackReactorMismatch
| KindOther.

Definition kind_of {sdk} (e : Exn sdk) : ErrorKind :=
  match e with
  | SdkFailure _ => KindDecodeFailure
  | UnexpectedOrderTypeError _ => KindUnexpectedOrderType
  | Error m =>
      if String.eqb m "CUSTOM_REACTOR_ADDRESS is not set"
      then KindFallbackConfigurationMissing
      else if String.eqb m "Invalid reactor address"
      then KindFallbackReactorMismatch
      else KindOther
  end.

(** ** A small SDK to run the parser on

    Encoded orders are looked up in a table.  The generic parser knows one
    reactor only and classifies an order whose decay window is empty as a
    limit order; the base-schema parser [DutchOrder.parse] accepts any
    reactor. *)

Record ToyOrder := {
  toy_reactor : string;
  toy_decayStartTime : Z;
  toy_decayEndTime : Z;
  toy_schema : OrderType
}.

Definition known_reactor : string := "0x6000da47483062A0D734Ba3dc7576Ce6A0B645C4".
Definition custom_reactor : string := "0xAbCdEf0123456789aBcDeF0123456789AbCdEf01".

Definition toy_dutch : ToyOrder :=
  {| toy_reactor := known_reactor; toy_decayStartTime := 100;
     toy_decayEndTime := 200; toy_schema := Dutch |}.
Definition toy_flat : ToyOrder :=
  {| toy_reactor := known_reactor; toy_decayStartTime := 100;
     toy_decayEndTime := 100; toy_schema := Dutch |}.
Definition toy_custom : ToyOrder :=
  {| toy_reactor := custom_reactor; toy_decayStartTime := 100;
     toy_decayEndTime := 200; toy_schema := Dutch |}.
Definition toy_custom_flat : ToyOrder :=
  {| toy_reactor := custom_reactor; toy_decayStartTime := 100;
     toy_decayEndTime := 100; toy_schema := Dutch |}.
Definition toy_v2 : ToyOrder :=
  {| toy_reactor := known_reactor; toy_decayStartTime := 100;
     toy_decayEndTime := 200; toy_schema := Dutch_V2 |}.
Definition toy_relay : ToyOrder :=
  {| toy_reactor := known_reactor; toy_decayStartTime := 0;
     toy_decayEndTime := 0; toy_schema := Relay |}.

Definition toy_table : list (string * ToyOrder) :=
  [ ("0x01", toy_dutch); ("0x02", toy_flat); ("0x03", toy_custom);
    ("0x04", toy_custom_flat); ("0x05", toy_v2); ("0x06", toy_relay) ].

Fixpoint toy_lookup (k : string) (l : list (string * ToyOrder))
  : option ToyOrder :=
  match l with
  | [] => None
  | (k', o) :: l' => if String.eqb k k' then Some o else toy_lookup k l'
  end.

Definition toy_decode (schema : OrderType) (encodedOrder : string)
  : string + ToyOrder :=
  match toy_lookup encodedOrder toy_table with
  | None => inl "invalid order"
  | Some o =>
      if OrderType_eqb (toy_schema o) schema then inr o
      else inl "unexpected shape"
  end.

Definition toy_classify (o : ToyOrder) : string + OrderType :=
  match toy_schema o with
  | Dutch =>
      if Z.eqb (toy_decayStartTime o) (toy_decayEndTime o)
      then inr Limit else inr Dutch
  | t => inr t
  end.

Definition toy_generic_parse (encodedOrder : string) (chainId : Z)
  : string + ToyOrder :=
  match toy_lookup encodedOrder toy_table with
  | None => inl "invalid order"
  | Some o =>
      if String.eqb (toy_reactor o) known_reactor then inr o
      else inl "MissingConfiguration"
  end.

(** The relay parser of the toy decodes every order of the table and
    classifies it by its schema. *)
Definition toy_relay_parse (encodedOrder : string) (chainId : Z)
  : string + ToyOrder :=
  match toy_lookup encodedOrder toy_table with
  | None => inl "invalid order"
  | Some o => inr o
  end.

Definition toy_sdk : Sdk := {|
  SdkOrder := ToyOrder;
  SdkError := string;
  uniswapXParser_parseOrder := toy_generic_parse;
  uniswapXParser_getOrderType := toy_classify;
  relayParser_parseOrder := toy_relay_parse;
  relayParser_getOrderType := fun o => inr (toy_schema o);
  CosignedV2DutchOrder_parse := fun s _ => toy_decode Dutch_V2 s;
  SDKDutchOrder_parse := fun s _ => toy_decode Dutch s;
  info_reactor := toy_reactor
|}.

Definition env_unset : ProcessEnv := {| CUSTOM_REACTOR_ADDRESS := None |}.
Definition env_custom : ProcessEnv :=
  {| CUSTOM_REACTOR_ADDRESS := Some "0xabcdef0123456789abcdef0123456789abcdef01" |}.
Definition env_other : ProcessEnv :=
  {| CUSTOM_REACTOR_ADDRESS := Some "0x00000000000000000000000000000000000000ff" |}.

Definition toy_body (encoded : string) (t : option OrderType)
    (q r : option string) : PostOrderRequestBody :=
  {| encodedOrder := encoded; signature := "0x5167"; chainId := 1;
     orderType := t; quoteId := q; requestId := r |}.

(** What the generic parser of the small SDK throws at an unknown
    reactor. *)
Definition toy_missing : Exn toy_sdk :=
  @SdkFailure toy_sdk "MissingConfiguration".

(** Submissions for the runs below. *)

(** A Dutch order on the custom reactor, no declared type. *)
Definition body_custom_legacy : PostOrderRequestBody :=
  toy_body "0x03" None (Some "quote-1") None.

(** The same order, declared [Dutch]. *)
Definition body_custom_declared_dutch : PostOrderRequestBody :=
  toy_body "0x03" (Some Dutch) (Some "quote-1") None.

(** An order on the custom reactor whose decay window is empty. *)
Definition body_custom_flat : PostOrderRequestBody :=
  toy_body "0x04" None None None.

(** A Dutch order on the known reactor, declared [Dutch], [Limit],
    [Dutch_V2] and [Relay] in turn. *)
Definition body_dutch_as_dutch : PostOrderRequestBody :=
  toy_body "0x01" (Some Dutch) None None.
Definition body_dutch_as_limit : PostOrderRequestBody :=
  toy_body "0x01" (Some Limit) None None.
Definition body_dutch_as_v2 : PostOrderRequestBody :=
  toy_body "0x01" (Some Dutch_V2) None None.
Definition body_dutch_as_relay : PostOrderRequestBody :=
  toy_body "0x01" (Some Relay) None None.

(** The same Dutch order sent again under another signature and quote. *)
Definition body_dutch_resent : PostOrderRequestBody :=
  {| encodedOrder := "0x01"; signature := "0xbeef"; chainId := 1;
     orderType := Some Dutch; quoteId := Some "quote-2";
     requestId := None |}.

(** A V2 order and a relay order with both correlation ids. *)
Definition body_v2 : PostOrderRequestBody :=
  toy_body "0x05" (Some Dutch_V2) (Some "quote-1") (Some "request-1").
Definition body_relay : PostOrderRequestBody :=
  toy_body "0x06" (Some Relay) (Some "quote-1") (Some "request-1").

(** Two outcomes that agree on everything the payload determines: the same
    failure, or orders of the same variant around the same decoded SDK
    order. *)
Definition same_decode {sdk} (r1 r2 : Outcome sdk (Order sdk)) : Prop :=
  match r1, r2 with
  | Thrown e1, Thrown e2 => e1 = e2
  | Returned o1, Returned o2 =>
      Order_orderType o1 = Order_orderType o2 /\ Order_inner o1 = Order_inner o2
  | _, _ => False
  end.

(** ** The fallback as the design describes it

    Re-decode against the base schema and propagate its failure; require a
    configured reactor address; require the decoded reactor to match it up
    to case; return a DutchV1 order. *)
Definition legacy_fallback_spec (sdk : Sdk) (env : ProcessEnv)
    (encodedOrder signature : string) (chainId : Z)
    (quoteId : option string) : Outcome sdk (Order sdk) :=
  match SDKDutchOrder_parse sdk encodedOrder chainId with
  | inl e => Thrown (SdkFailure e)
  | inr order =>
      match CUSTOM_REACTOR_ADDRESS env with
      | None | Some EmptyString =>
          Thrown (Error "CUSTOM_REACTOR_ADDRESS is not set")
      | Some addr =>
          if eq_ignore_case (info_reactor sdk order) addr
          then Returned (DutchV1Order order signature chainId quoteId)
          else Thrown (Error "Invalid reactor address")
      end
  end.

(** ** Further observations on a run *)

(** The messages a run logged at error level, in order. *)
Fixpoint error_logs {sdk} (t : list (Event sdk)) : list string :=
  match t with
  | [] => []
  | Logged error m _ :: t' => m :: error_logs t'
  | _ :: t' => error_logs t'
  end.

(** The last event of a run, if any. *)
Definition last_event {sdk} (t : list (Event sdk)) : option (Event sdk) :=
  hd_error (rev t).

(** The message of the error log each declared type ends a failed run
    with. *)
Definition failure_message (t : option OrderType) : string :=
  match t with
  | Some Dutch => "Unable to parse DutchV1 order"
  | Some Limit => "Unable to parse Limit order"
  | Some Dutch_V2 => "Unable to parse DutchV2 order"
  | Some Relay => "Unable to parse Relay order"
  | None => "Unable to parse legacy Dutch order"
  end.

(** More submissions and settings for the small SDK. *)
Definition body_v2_legacy : PostOrderRequestBody :=
  toy_body "0x05" None None None.
Definition body_flat_legacy : PostOrderRequestBody :=
  toy_body "0x02" None None None.
Definition body_flat_as_dutch : PostOrderRequestBody :=
  toy_body "0x02" (Some Dutch) None None.
Definition body_custom_as_limit : PostOrderRequestBody :=
  toy_body "0x04" (Some Limit) None None.
Definition body_garbage_legacy : PostOrderRequestBody :=
  toy_body "0xff" None None None.
Definition env_custom_mixed : ProcessEnv :=
  {| CUSTOM_REACTOR_ADDRESS := Some custom_reactor |}.

(** ** The handlers around the parser

    The step-function handler base class and the get-orders handler are
    asynchronous, but each awaits its collaborators one after the other, so
    a run is again a trace of events and a result or a thrown value.  [Eff]
    is the parser's monad with the types of events and of thrown values
    left open. *)

Module Eff.

Inductive Result (X A : Type) :=
| Ok (a : A)
| Raise (x : X).
Arguments Ok {X A} a.
Arguments Raise {X A} x.

Definition t (Ev X A : Type) : Type := (list Ev * Result X A)%type.

Section Ops.

Context {Ev X : Type}.

Definition ret {A} (a : A) : t Ev X A := ([], Ok a).
Definition raise {A} (x : X) : t Ev X A := ([], Raise x).
Definition emit (ev : Ev) : t Ev X unit := ([ev], Ok tt).

Definition bind {A B} (m : t Ev X A) (k : A -> t Ev X B) : t Ev X B :=
  match m with
  | (tr, Ok a) => let (tr', r) := k a in (tr ++ tr', r)
  | (tr, Raise x) => (tr, Raise x)
  end.

(** [try { m } catch (err) { h err }] *)
Definition try_catch {A} (m : t Ev X A) (h : X -> t Ev X A) : t Ev X A :=
  match m with
  | (tr, Ok a) => (tr, Ok a)
  | (tr, Raise x) => let (tr', r) := h x in (tr ++ tr', r)
  end.

(** A call of (or an [await] on) a collaborator: the event [ev] is
    recorded, then the collaborator's value is returned or what it threw is
    raised. *)
Definition perform {T A} (ev : Ev) (wrap : T -> X) (r : T + A) : t Ev X A :=
  ([ev],
   match r with
   | inl e => Raise (wrap e)
   | inr a => Ok a
   end).

End Ops.

End Eff.

(** *** [SfnLambdaHandler] *)

Module Sfn.

(** Joi's validation result: [inputValidation.error], [error.message]. *)
Record ValidationError := { message : string }.
Record ValidationResult := { error : option ValidationError }.

Inductive Collaborator :=
| Schema_validate
| Await_injectorPromise
| Injector_getContainerInjected
| Injector_getRequestInjected
| HandleRequest.

(** [bunyan.INFO] and [bunyan.FATAL]. *)
Definition bunyan_INFO : Z := 30.
Definition bunyan_FATAL : Z := 60.

(** The line feed of the template string. *)
Definition newline : string := String (ascii_of_nat 10) EmptyString.

Section Handler.

(** [SfnStateInputOutput], the two injected values, and whatever a
    collaborator throws or rejects with. *)
Variables SfnStateInputOutput CInj RInj Thrown : Type.

(** [schema.validate(input, { allowUnknown: true })] *)
Definition ObjectSchema : Type := SfnStateInputOutput -> ValidationResult.

Record SfnInjector := {
  getContainerInjected : Thrown + CInj;
  getRequestInjected : CInj -> SfnStateInputOutput -> Thrown + RInj
}.

(** A concrete handler: its name, the promise of its injector (an injector
    or a rejection) and its two abstract methods. *)
Record SfnLambdaHandler := {
  handlerName : string;
  injectorPromise : Thrown + SfnInjector;
  inputSchema : option ObjectSchema;
  handleRequest : CInj -> RInj -> Thrown + SfnStateInputOutput
}.

(** Modelled from the spec: the error classes [SfnInputValidationError] and
    [InjectionError] of [util/errors] are not among the sources; each is an
    error carrying the message it is constructed with. *)
Inductive Exn :=
| Rejection (t : Thrown)
| SfnInputValidationError (message : string)
| InjectionError (message : string).

Inductive Event :=
| CreateLogger (name : string) (level : Z)
| Called (c : Collaborator)
| LogInfo (inputValidation : ValidationResult) (msg : string)
| LogError (err : Exn) (sfnInput : SfnStateInputOutput) (msg : string).

#[local] Abbreviation M := (Eff.t Event Exn).

#[local] Notation "x <- m ;; k" := (Eff.bind m (fun x => k))
  (at level 61, m at next level, right associativity).
#[local] Notation "m ;;; k" := (Eff.bind m (fun _ => k))
  (at level 61, right associativity).

(** [process.env.NODE_ENV], the string conversion of a caught value in the
    template string, and the handler itself. *)
Variable NODE_ENV : option string.
Variable toString : Exn -> string.
Variable this : SfnLambdaHandler.

(** [process.env.NODE_ENV == 'test'] *)
Definition is_test : bool :=
  match NODE_ENV with
  | Some v => String.eqb v "test"
  | None => false
  end.

Definition validateInput (input : SfnStateInputOutput)
  : M SfnStateInputOutput :=
  let schema := inputSchema this in
  match schema with
  | Some schema =>
      inputValidation <-
        (Eff.emit (Called Schema_validate) ;;; Eff.ret (schema input)) ;;
      match error inputValidation with
      | Some err =>
          Eff.emit (LogInfo inputValidation "Input failed validation") ;;;
          Eff.raise (SfnInputValidationError (message err))
      | None => Eff.ret input
      end
  | None => Eff.ret input
  end.

Definition buildHandler (sfnInput : SfnStateInputOutput)
  : M SfnStateInputOutput :=
  Eff.emit
    (CreateLogger (handlerName this)
       (if is_test then bunyan_FATAL + 1 else bunyan_INFO)) ;;;
  validateInput sfnInput ;;;
  injector <- Eff.perform (Called Await_injectorPromise) Rejection
                (injectorPromise this) ;;
  containerInjected <- Eff.perform (Called Injector_getContainerInjected)
                         Rejection (getContainerInjected injector) ;;
  requestInjected <-
    Eff.try_catch
      (Eff.perform (Called Injector_getRequestInjected) Rejection
         (getRequestInjected injector containerInjected sfnInput))
      (fun err =>
         Eff.emit
           (LogError err sfnInput
              "Unexpected error building request injected.") ;;;
         Eff.raise
           (InjectionError
              ("Unexpected error building request injected:" ++ newline
               ++ toString err)%string)) ;;
  Eff.perform (Called HandleRequest) Rejection
    (handleRequest this containerInjected requestInjected).

(** [get handler()] *)
Definition handler (event : SfnStateInputOutput) : M SfnStateInputOutput :=
  let handler := buildHandler in
  handler event.

(** The collaborators a run called, in order. *)
Fixpoint calls (tr : list Event) : list Collaborator :=
  match tr with
  | [] => []
  | Called c :: tr' => c :: calls tr'
  | _ :: tr' => calls tr'
  end.

(** The calls of a run in which nothing fails. *)
Definition planned_calls : list Collaborator :=
  match inputSchema this with
  | Some _ => [Schema_validate]
  | None => []
  end ++ [Await_injectorPromise; Injector_getContainerInjected;
          Injector_getRequestInjected; HandleRequest].

End Handler.

Arguments Rejection {Thrown} t.
Arguments SfnInputValidationError {Thrown} message.
Arguments InjectionError {Thrown} message.
Arguments CreateLogger {SfnStateInputOutput Thrown} name level.
Arguments Called {SfnStateInputOutput Thrown} c.
Arguments LogInfo {SfnStateInputOutput Thrown} inputValidation msg.
Arguments LogError {SfnStateInputOutput Thrown} err sfnInput msg.
Arguments handlerName {SfnStateInputOutput CInj RInj Thrown} _.
Arguments injectorPromise {SfnStateInputOutput CInj RInj Thrown} _.
Arguments inputSchema {SfnStateInputOutput CInj RInj Thrown} _.
Arguments handleRequest {SfnStateInputOutput CInj RInj Thrown} _ _ _.
Arguments getContainerInjected {SfnStateInputOutput CInj RInj Thrown} _.
Arguments getRequestInjected {SfnStateInputOutput CInj RInj Thrown} _ _ _.
Arguments validateInput {SfnStateInputOutput CInj RInj Thrown} this input.
Arguments buildHandler {SfnStateInputOutput CInj RInj Thrown}
  NODE_ENV toString this sfnInput.
Arguments handler {SfnStateInputOutput CInj RInj Thrown}
  NODE_ENV toString this event.
Arguments calls {SfnStateInputOutput Thrown} tr.
Arguments planned_calls {SfnStateInputOutput CInj RInj Thrown} this.

(** A handler to run: the state input is an order hash, the empty hash is
    refused by the schema and the hash "unknown" by the injector. *)
Definition toy_schema : ObjectSchema string :=
  fun input =>
    if String.eqb input ""
    then {| error := Some {| message := "orderHash is required" |} |}
    else {| error := None |}.

Definition toy_injector : SfnInjector string nat string string :=
  {| getContainerInjected := inr 7%nat;
     getRequestInjected := fun _ input =>
       if String.eqb input "unknown" then inl "order not found"
       else inr ("request:" ++ input)%string |}.

Definition toy_handler : SfnLambdaHandler string nat string string :=
  {| handlerName := "check-order-status";
     injectorPromise := inr toy_injector;
     inputSchema := Some toy_schema;
     handleRequest := fun _ r =>
       if String.eqb r "request:0xdead" then inl "order expired"
       else inr ("done:" ++ r)%string |}.

Definition toy_handler_no_schema : SfnLambdaHandler string nat string string :=
  {| handlerName := "check-order-status";
     injectorPromise := inr toy_injector;
     inputSchema := None;
     handleRequest := fun _ r => inr ("done:" ++ r)%string |}.

Definition toy_handler_unresolved
  : SfnLambdaHandler string nat string string :=
  {| handlerName := "check-order-status";
     injectorPromise := inl "container build failed";
     inputSchema := Some toy_schema;
     handleRequest := fun _ r => inr r |}.

Definition toy_toString (e : Exn string) : string :=
  match e with
  | Rejection t => ("Error: " ++ t)%string
  | SfnInputValidationError m => ("Error: " ++ m)%string
  | InjectionError m => ("Error: " ++ m)%string
  end.

End Sfn.

(** *** [GetOrdersHandler] *)

Module GetOrders.

Section Handler.

(** The order rows, the query filters, and whatever the database layer
    throws. *)
Variables OrderEntity QueryFilters Thrown : Type.

(** [e instanceof Error], with [e.message] when it holds. *)
Variable as_Error : Thrown -> option string.

Record DbInterface := {
  getOrders : Z -> QueryFilters -> Thrown + list (option OrderEntity)
}.

Record RequestInjected := {
  limit : Z;
  queryFilters : QueryFilters
}.

Record ContainerInjected := {
  dbInterface : DbInterface
}.

Record HandleRequestParams := {
  requestInjected : RequestInjected;
  containerInjected : ContainerInjected
}.

(** [Response<GetOrdersResponse> | ErrorResponse]: the success reply has a
    status code and a body holding the orders; the error reply has a status
    code and may have an error code. *)
Inductive Reply :=
| Response (statusCode : Z) (orders : list (option OrderEntity))
| ErrorResponse (statusCode : Z) (errorCode : option string).

Definition statusCode_of (r : Reply) : Z :=
  match r with
  | Response c _ | ErrorResponse c _ => c
  end.

Inductive Event :=
| GetOrdersCalled (limit : Z) (queryFilters : QueryFilters).

#[local] Notation "x <- m ;; k" := (Eff.bind m (fun x => k))
  (at level 61, m at next level, right associativity).

Definition handleRequest (params : HandleRequestParams)
  : Eff.t Event Thrown Reply :=
  let limit := limit (requestInjected params) in
  let queryFilters := queryFilters (requestInjected params) in
  let dbInterface := dbInterface (containerInjected params) in
  Eff.try_catch
    (orders <- Eff.perform (GetOrdersCalled limit queryFilters)
                 (fun e => e) (getOrders dbInterface limit queryFilters) ;;
     Eff.ret (Response 200 orders))
    (fun e => Eff.ret (ErrorResponse 500 (as_Error e))).

(** What the database layer answers to the request's query. *)
Definition db_answer (params : HandleRequestParams)
  : Thrown + list (option OrderEntity) :=
  getOrders (dbInterface (containerInjected params))
    (limit (requestInjected params))
    (queryFilters (requestInjected params)).

End Handler.

Arguments Response {OrderEntity} statusCode orders.
Arguments ErrorResponse {OrderEntity} statusCode errorCode.
Arguments statusCode_of {OrderEntity} r.
Arguments GetOrdersCalled {QueryFilters} limit queryFilters.
Arguments handleRequest {OrderEntity QueryFilters Thrown} as_Error params.
Arguments db_answer {OrderEntity QueryFilters Thrown} params.

(** A database to run the handler on: a thrown [Some m] is an [Error] with
    message [m], a thrown [None] a value that is no [Error]. *)
Definition toy_db : DbInterface string string (option string) :=
  {| getOrders := fun limit filters =>
       if Z.ltb limit 0 then inl (Some "limit must be positive")
       else if String.eqb filters "offline" then inl None
       else inr [Some "order-1"; None; Some "order-3"] |}.

Definition toy_params (limit : Z) (filters : string)
  : HandleRequestParams string string (option string) :=
  {| requestInjected := {| limit := limit; queryFilters := filters |};
     containerInjected := {| dbInterface := toy_db |} |}.

End GetOrders.

(** ** Case folding *)

Ltac leb_to_prop :=
  repeat match goal with
    | H : andb _ _ = true |- _ => apply andb_true_iff in H as [? ?]
    | H : andb _ _ = false |- _ => apply andb_false_iff in H as [H|H]
    | H : Nat.leb _ _ = true |- _ => apply Nat.leb_le in H
    | H : Nat.leb _ _ = false |- _ => apply Nat.leb_gt in H
    end.

Lemma nat_of_ascii_inj (a b : ascii) :
  nat_of_ascii a = nat_of_ascii b -> a = b.
Proof.
  intros H.
  rewrite <- (ascii_nat_embedding a), <- (ascii_nat_embedding b).
  now rewrite H.
Qed.

Lemma nat_of_lower_ascii (c : ascii) :
  nat_of_ascii (lower_ascii c)
  = if is_upper c then (nat_of_ascii c + 32)%nat else nat_of_ascii c.
Proof.
  unfold lower_ascii.
  destruct (is_upper c) eqn:U; [|reflexivity].
  apply nat_ascii_embedding.
  unfold is_upper in U.
  apply andb_true_iff in U as [_ U].
  apply Nat.leb_le in U. lia.
Qed.

Lemma lower_ascii_same_letter (a b : ascii) :
  Ascii.eqb (lower_ascii a) (lower_ascii b) = same_letter a b.
Proof.
  apply eq_true_iff_eq.
  rewrite Ascii.eqb_eq.
  split.
  - intros E. apply (f_equal nat_of_ascii) in E.
    rewrite !nat_of_lower_ascii in E.
    unfold same_letter.
    destruct (is_upper a) eqn:Ua, (is_upper b) eqn:Ub;
      cbv iota in E; cbn [andb orb];
      rewrite ?orb_false_r, ?orb_true_iff, ?Nat.eqb_eq; lia.
  - intros S. apply nat_of_ascii_inj.
    rewrite !nat_of_lower_ascii.
    unfold same_letter in S.
    destruct (is_upper a) eqn:Ua, (is_upper b) eqn:Ub;
      cbv iota; cbn [andb orb] in S;
      rewrite ?orb_false_r, ?orb_true_iff, ?Nat.eqb_eq in S;
      unfold is_upper in Ua, Ub; cbv zeta in Ua, Ub;
      leb_to_prop; lia.
Qed.

(** Comparing the lower-cased strings, as the parser does, is comparing
    the strings up to the case of their letters. *)
Lemma toLowerCase_eq_ignore_case (s t : string) :
  String.eqb (toLowerCase s) (toLowerCase t) = eq_ignore_case s t.
Proof.
  revert t.
  induction s as [|a s IH]; intros [|b t]; cbn; try reflexivity.
  rewrite lower_ascii_same_letter, IH. reflexivity.
Qed.

Lemma eq_ignore_case_refl (s : string) : eq_ignore_case s s = true.
Proof.
  rewrite <- toLowerCase_eq_ignore_case. apply String.eqb_refl.
Qed.

Lemma eq_ignore_case_sym (s t : string) :
  eq_ignore_case s t = eq_ignore_case t s.
Proof.
  rewrite <- !toLowerCase_eq_ignore_case. apply String.eqb_sym.
Qed.

(** ** The parser monad *)

Section Properties.

Context (sdk : Sdk).
Variable env : ProcessEnv.

#[local] Abbreviation M := (M sdk).
#[local] Abbreviation Exn := (Exn sdk).
#[local] Abbreviation Order := (Order sdk).

Lemma tryCatch_returned {A} (m : M A) (h : Exn -> M A) (a : A) :
  snd m = Returned a -> tryCatch sdk m h = (fst m, Returned a).
Proof. destruct m as [t r]; cbn; intros ->; reflexivity. Qed.

Lemma tryCatch_thrown {A} (m : M A) (h : Exn -> M A) (e : Exn) :
  snd m = Thrown e ->
  tryCatch sdk m h = (fst m ++ fst (h e), snd (h e)).
Proof.
  destruct m as [t r]; cbn; intros ->.
  destruct (h e); reflexivity.
Qed.

Lemma bind_returned {A B} (m : M A) (k : A -> M B) (a : A) :
  snd m = Returned a ->
  bind sdk m k = (fst m ++ fst (k a), snd (k a)).
Proof.
  destruct m as [t r]; cbn; intros ->.
  destruct (k a); reflexivity.
Qed.

Lemma bind_thrown {A B} (m : M A) (k : A -> M B) (e : Exn) :
  snd m = Thrown e -> bind sdk m k = (fst m, Thrown e).
Proof. destruct m as [t r]; cbn; intros ->; reflexivity. Qed.

(** A handler that logs and rethrows changes the trace only. *)
Lemma log_and_rethrow {A} (m : M A) (msg : string)
    (ctx : Exn -> LogContext sdk) :
  snd (tryCatch sdk m
         (fun err => bind sdk (logger_error sdk msg (ctx err))
                       (fun _ => throw sdk err)))
  = snd m.
Proof. destruct m as [t [a|e]]; reflexivity. Qed.

Lemma sdk_calls_app (t u : list (Event sdk)) :
  sdk_calls (t ++ u) = sdk_calls t ++ sdk_calls u.
Proof.
  induction t as [|[f|l m c] t IH]; cbn; [reflexivity| |assumption].
  now rewrite IH.
Qed.

Lemma fallback_reached_app (t u : list (Event sdk)) :
  fallback_reached (t ++ u) = (fallback_reached t || fallback_reached u)%bool.
Proof. apply existsb_app. Qed.

(** ** The generic decoder and the fallback *)

(** Unfolds the parser down to the SDK's answers. *)
Ltac unfold_parser :=
  unfold fromPostRequest, tryParseDutchV1Order, tryParseLimitOrder,
    tryParseDutchV2Order, tryParseRelayOrder, tryParseDutchOrder,
    tryParseDutchOrder_catch, tryParseDutchOrder_fallback,
    tryParseDutchOrder_try, tryCatch, bind, call, ret, throw,
    logger_warn, logger_error in *.

(** Splits on the next SDK answer, configuration value or test the run
    depends on. *)
Ltac case_step :=
  match goal with
  | |- context [match ?x with inl _ => _ | inr _ => _ end] =>
      destruct x eqn:?
  | |- context [match CUSTOM_REACTOR_ADDRESS ?e with _ => _ end] =>
      destruct (CUSTOM_REACTOR_ADDRESS e) as [[|? ?]|] eqn:?
  | |- context [if ?b then _ else _] => destruct b eqn:?
  end; cbn in *.

Lemma fallback_refines_spec (err : Exn) (encodedOrder signature : string)
    (chainId : Z) (quoteId : option string) :
  snd (tryParseDutchOrder_fallback sdk env err encodedOrder signature chainId
         quoteId)
  = legacy_fallback_spec sdk env encodedOrder signature chainId quoteId.
Proof.
  unfold legacy_fallback_spec. unfold_parser.
  destruct (SDKDutchOrder_parse sdk encodedOrder chainId) as [e|order];
    [reflexivity|].
  destruct (CUSTOM_REACTOR_ADDRESS env) as [[|c addr]|]; try reflexivity.
  rewrite toLowerCase_eq_ignore_case.
  destruct (eq_ignore_case _ _); reflexivity.
Qed.

Lemma catch_refines_spec (err : Exn) (encodedOrder signature : string)
    (chainId : Z) (quoteId : option string) :
  snd (tryParseDutchOrder_catch sdk env err encodedOrder signature chainId
         quoteId)
  = legacy_fallback_spec sdk env encodedOrder signature chainId quoteId.
Proof.
  unfold tryParseDutchOrder_catch.
  rewrite (log_and_rethrow _ _
             (fun err => ParseContext err encodedOrder chainId signature)).
  apply fallback_refines_spec.
Qed.

(** What [tryParseDutchOrder] hands back: the generic decoder's order, or
    else whatever the fallback produced. *)
Lemma tryParseDutchOrder_outcome (encodedOrder signature : string)
    (chainId : Z) (quoteId : option string) :
  snd (tryParseDutchOrder sdk env encodedOrder signature chainId quoteId)
  = match snd (tryParseDutchOrder_try sdk encodedOrder signature chainId
                 quoteId) with
    | Returned o => Returned o
    | Thrown _ =>
        legacy_fallback_spec sdk env encodedOrder signature chainId quoteId
    end.
Proof.
  unfold tryParseDutchOrder.
  destruct (snd (tryParseDutchOrder_try sdk encodedOrder signature chainId
                   quoteId)) as [o|e] eqn:G.
  - now rewrite (tryCatch_returned _ _ _ G).
  - rewrite (tryCatch_thrown _ _ _ G). cbn [snd].
    apply catch_refines_spec.
Qed.

(** ** When the generic decoder has failed *)

(** C1 (amended): for a submission with no declared order type, when the
    generic decoder fails and the legacy fallback fails too, the failure
    handed to the caller is the fallback's; the generic decoder's failure
    is only logged, in the warning that opens the fallback. *)
Theorem legacy_both_fail_reports_fallback_failure
    (body : PostOrderRequestBody) (e1 e2 : Exn) :
  orderType body = None ->
  snd (tryParseDutchOrder_try sdk (encodedOrder body) (signature body)
         (chainId body) (quoteId body)) = Thrown e1 ->
  snd (tryParseDutchOrder_fallback sdk env e1 (encodedOrder body)
         (signature body) (chainId body) (quoteId body)) = Thrown e2 ->
  snd (fromPostRequest sdk env body) = Thrown e2
  /\ In (Logged warn
           "Unable to parse legacy Dutch order - trying to parse with custom reactor"
           (ParseContext e1 (encodedOrder body) (chainId body)
              (signature body)))
        (fst (fromPostRequest sdk env body))
  /\ In (Logged error "Unable to parse legacy Dutch order"
           (ParseContext e2 (encodedOrder body) (chainId body)
              (signature body)))
        (fst (fromPostRequest sdk env body)).
Proof.
  intros Hty G F.
  unfold fromPostRequest. rewrite Hty.
  unfold tryParseDutchOrder.
  rewrite (tryCatch_thrown _ _ _ G).
  unfold tryParseDutchOrder_catch.
  rewrite (tryCatch_thrown _ _ _ F).
  cbn [fst snd].
  split; [reflexivity|].
  split.
  - apply in_or_app. right. apply in_or_app. left.
    unfold tryParseDutchOrder_fallback, logger_warn, bind. cbn.
    match goal with
    | |- context [let (_, _) := ?m in _] => destruct m
    end.
    left. reflexivity.
  - apply in_or_app. right. apply in_or_app. right.
    left. reflexivity.
Qed.

(** C3: on the fallback path, once the base-schema decoder has returned an
    order and a reactor address is configured, [tryParseDutchOrder] returns
    that order as a DutchV1 order exactly when its reactor equals the
    configured address up to case, and throws the reactor-mismatch error
    otherwise. *)
Theorem fallback_succeeds_iff_reactor_matches
    (encodedOrder signature : string) (chainId : Z)
    (quoteId : option string) (err : Exn) (order : SdkOrder sdk)
    (addr : string) :
  snd (tryParseDutchOrder_try sdk encodedOrder signature chainId quoteId)
    = Thrown err ->
  SDKDutchOrder_parse sdk encodedOrder chainId = inr order ->
  CUSTOM_REACTOR_ADDRESS env = Some addr ->
  addr <> EmptyString ->
  (snd (tryParseDutchOrder sdk env encodedOrder signature chainId quoteId)
     = Returned (DutchV1Order order signature chainId quoteId)
   <-> eq_ignore_case (info_reactor sdk order) addr = true)
  /\ ((exists o,
         snd (tryParseDutchOrder sdk env encodedOrder signature chainId
                quoteId) = Returned o)
      -> eq_ignore_case (info_reactor sdk order) addr = true)
  /\ (eq_ignore_case (info_reactor sdk order) addr = false ->
      snd (tryParseDutchOrder sdk env encodedOrder signature chainId quoteId)
        = Thrown (Error "Invalid reactor address")
      /\ kind_of (Error "Invalid reactor address" : Exn)
         = KindFallbackReactorMismatch).
Proof.
  intros G P C NE.
  rewrite tryParseDutchOrder_outcome, G.
  unfold legacy_fallback_spec. rewrite P, C.
  destruct addr as [|c addr]; [congruence|].
  destruct (eq_ignore_case (info_reactor sdk order) (String c addr)).
  - split; [tauto|]. split; [reflexivity|discriminate].
  - split; [split; discriminate|].
    split; [intros [o H]; discriminate|].
    intros _. split; reflexivity.
Qed.

(** C4: on the fallback path, once the base-schema decoder has returned an
    order, a missing (or empty) reactor setting makes the parser throw the
    configuration error, which is none of the decode failures. *)
Theorem fallback_without_configuration
    (encodedOrder signature : string) (chainId : Z)
    (quoteId : option string) (err : Exn) (order : SdkOrder sdk) :
  snd (tryParseDutchOrder_try sdk encodedOrder signature chainId quoteId)
    = Thrown err ->
  SDKDutchOrder_parse sdk encodedOrder chainId = inr order ->
  js_not (CUSTOM_REACTOR_ADDRESS env) = true ->
  exists e : Exn,
    snd (tryParseDutchOrder sdk env encodedOrder signature chainId quoteId)
      = Thrown e
    /\ e = Error "CUSTOM_REACTOR_ADDRESS is not set"
    /\ kind_of e = KindFallbackConfigurationMissing
    /\ kind_of e <> KindDecodeFailure
    /\ (forall s, e <> SdkFailure s).
Proof.
  intros G P C.
  exists (Error "CUSTOM_REACTOR_ADDRESS is not set").
  rewrite tryParseDutchOrder_outcome, G.
  unfold legacy_fallback_spec. rewrite P.
  destruct (CUSTOM_REACTOR_ADDRESS env) as [[|c a]|]; try discriminate C;
    repeat split; discriminate.
Qed.

(** C9: whatever the fallback returns is a DutchV1 order built from the
    order the base-schema decoder returned, whatever the shape of that
    order; in particular it is never a Limit order. *)
Theorem fallback_result_is_DutchV1
    (err : Exn) (encodedOrder signature : string) (chainId : Z)
    (quoteId : option string) (o : Order) :
  snd (tryParseDutchOrder_catch sdk env err encodedOrder signature chainId
         quoteId) = Returned o ->
  Order_orderType o = Dutch
  /\ Order_orderType o <> Limit
  /\ exists order,
       SDKDutchOrder_parse sdk encodedOrder chainId = inr order
       /\ o = DutchV1Order order signature chainId quoteId.
Proof.
  rewrite catch_refines_spec. unfold legacy_fallback_spec.
  destruct (SDKDutchOrder_parse sdk encodedOrder chainId) as [e|order];
    [discriminate|].
  destruct (CUSTOM_REACTOR_ADDRESS env) as [[|c a]|]; try discriminate.
  destruct (eq_ignore_case _ _); [|discriminate].
  intros [= <-]. cbn.
  split; [reflexivity|]. split; [discriminate|].
  exists order. split; reflexivity.
Qed.

(** ** Where the fallback runs *)

Lemma generic_try_no_fallback_event (encodedOrder signature : string)
    (chainId : Z) (quoteId : option string) :
  fallback_reached
    (fst (tryParseDutchOrder_try sdk encodedOrder signature chainId quoteId))
  = false.
Proof. unfold_parser. repeat case_step; reflexivity. Qed.

Lemma catch_is_fallback (err : Exn) (encodedOrder signature : string)
    (chainId : Z) (quoteId : option string) :
  fallback_reached
    (fst (tryParseDutchOrder_catch sdk env err encodedOrder signature chainId
            quoteId))
  = true.
Proof. unfold_parser. repeat case_step; reflexivity. Qed.

Lemma tryParseDutchOrder_fallback_reached (encodedOrder signature : string)
    (chainId : Z) (quoteId : option string) :
  fallback_reached
    (fst (tryParseDutchOrder sdk env encodedOrder signature chainId quoteId))
  = match snd (tryParseDutchOrder_try sdk encodedOrder signature chainId
                 quoteId) with
    | Returned _ => false
    | Thrown _ => true
    end.
Proof.
  unfold tryParseDutchOrder.
  destruct (snd (tryParseDutchOrder_try sdk encodedOrder signature chainId
                   quoteId)) as [o|e] eqn:G.
  - rewrite (tryCatch_returned _ _ _ G). cbn [fst].
    apply generic_try_no_fallback_event.
  - rewrite (tryCatch_thrown _ _ _ G). cbn [fst].
    rewrite fallback_reached_app, catch_is_fallback.
    apply orb_true_r.
Qed.

(** Wrapping a run in a handler that logs an error and rethrows adds no
    fallback event. *)
Lemma checked_wrapper_fallback_reached (m : M Order) (t : OrderType)
    (msg : string) (ctx : Exn -> LogContext sdk) :
  fallback_reached
    (fst (tryCatch sdk
            (bind sdk m (fun order =>
               if OrderType_eqb (Order_orderType order) t
               then ret sdk order
               else throw sdk
                      (UnexpectedOrderTypeError (Order_orderType order))))
            (fun err => bind sdk (logger_error sdk msg (ctx err))
                          (fun _ => throw sdk err))))
  = fallback_reached (fst m).
Proof.
  unfold fallback_reached.
  destruct m as [tr [o|e]]; cbn.
  - destruct (OrderType_eqb (Order_orderType o) t); cbn;
      rewrite ?app_nil_r, ?existsb_app; cbn;
      rewrite ?orb_false_r; reflexivity.
  - rewrite existsb_app. cbn. apply orb_false_r.
Qed.

(** C2 (amended): the fallback runs exactly when the generic decoder fails
    and the declared order type is absent, Dutch or Limit; a submission
    declared Dutch_V2 or Relay never reaches it. *)
Theorem fallback_reached_iff (body : PostOrderRequestBody) :
  (fallback_reached (fst (fromPostRequest sdk env body)) = true
   <-> (orderType body = None \/ orderType body = Some Dutch
        \/ orderType body = Some Limit)
       /\ exists e,
            snd (tryParseDutchOrder_try sdk (encodedOrder body)
                   (signature body) (chainId body) (quoteId body))
            = Thrown e)
  /\ (orderType body = Some Dutch_V2 \/ orderType body = Some Relay ->
      fallback_reached (fst (fromPostRequest sdk env body)) = false).
Proof.
  assert (V2 : fallback_reached
                 (fst (tryParseDutchV2Order sdk (encodedOrder body)
                         (signature body) (chainId body) (quoteId body)
                         (requestId body))) = false)
    by (unfold_parser; repeat case_step; reflexivity).
  assert (RL : fallback_reached
                 (fst (tryParseRelayOrder sdk (encodedOrder body)
                         (signature body) (chainId body))) = false)
    by (unfold_parser; repeat case_step; reflexivity).
  unfold fromPostRequest.
  destruct (orderType body) as [[| | |]|];
    unfold tryParseDutchV1Order, tryParseLimitOrder;
    rewrite ?(checked_wrapper_fallback_reached _ _ _
                (fun err => ParseContext err (encodedOrder body)
                              (chainId body) (signature body)));
    rewrite ?tryParseDutchOrder_fallback_reached, ?V2, ?RL;
    (split; [|first [reflexivity | intros [H|H]; discriminate H]]).
  all: try (split; [discriminate | intros [[H|[H|H]] _]; discriminate H]).
  all: destruct (snd (tryParseDutchOrder_try sdk _ _ _ _)) as [o|e];
    (split; [intros H; try discriminate H; split; eauto
            | intros [_ [e' H]]; first [discriminate H | reflexivity]]).
Qed.

(** ** What a run depends on and what its result carries *)

(** C5 (amended): two submissions with the same encoded order, chain id
    and declared order type, decoded against the same SDK and
    configuration, end alike: with the same failure, or with orders of the
    same variant around the same decoded order.  Submissions equal in
    every field yield equal runs. *)
Theorem decode_determined_by_payload_and_type (b1 b2 : PostOrderRequestBody) :
  encodedOrder b1 = encodedOrder b2 ->
  chainId b1 = chainId b2 ->
  orderType b1 = orderType b2 ->
  same_decode (snd (fromPostRequest sdk env b1))
              (snd (fromPostRequest sdk env b2))
  /\ (signature b1 = signature b2 -> quoteId b1 = quoteId b2 ->
      requestId b1 = requestId b2 ->
      fromPostRequest sdk env b1 = fromPostRequest sdk env b2).
Proof.
  destruct b1 as [eo1 sg1 ci1 ty1 q1 r1], b2 as [eo2 sg2 ci2 ty2 q2 r2].
  cbn. intros <- <- <-.
  split; [|intros <- <- <-; reflexivity].
  unfold same_decode.
  destruct ty1 as [[| | |]|]; unfold_parser; cbn;
    repeat case_step; auto; discriminate.
Qed.

(** C6 (amended): a decoded order carries the signature and the chain id
    of its submission.  A DutchV2 order also carries the quote id and the
    request id; a DutchV1 or Limit order carries the quote id and no
    request id; a Relay order carries neither. *)
Theorem decoded_order_carries (body : PostOrderRequestBody) (o : Order) :
  snd (fromPostRequest sdk env body) = Returned o ->
  Order_signature o = signature body
  /\ Order_chainId o = chainId body
  /\ match o with
     | DutchV2Order _ _ _ _ _ q r => q = quoteId body /\ r = requestId body
     | DutchV1Order _ _ _ q | LimitOrder _ _ _ q => q = quoteId body
     | RelayOrder _ _ _ => True
     end
  /\ (Order_orderType o <> Dutch_V2 -> Order_requestId o = None)
  /\ (Order_orderType o = Relay -> Order_quoteId o = None).
Proof.
  destruct body as [eo sg ci ty q r]. cbn.
  revert o.
  destruct ty as [[| | |]|]; unfold_parser; cbn;
    repeat case_step; intros o' [= <-]; cbn; repeat split;
    congruence.
Qed.

(** ** The declared types Relay and Dutch_V2 *)

(** C7: a submission declared Relay whose payload the relay parser decodes
    but classifies as another type ends in [UnexpectedOrderTypeError] of
    that type; the run consists of the two relay calls and the error log,
    with neither the generic decoder nor the fallback. *)
Theorem relay_type_mismatch_is_terminal
    (body : PostOrderRequestBody) (order : SdkOrder sdk) (t : OrderType) :
  orderType body = Some Relay ->
  relayParser_parseOrder sdk (encodedOrder body) (chainId body) = inr order ->
  relayParser_getOrderType sdk order = inr t ->
  t <> Relay ->
  fromPostRequest sdk env body
  = ([Called Call_relayParser_parseOrder;
      Called Call_relayParser_getOrderType;
      Logged error "Unable to parse Relay order"
        (ParseContext (UnexpectedOrderTypeError t) (encodedOrder body)
           (chainId body) (signature body))],
     Thrown (UnexpectedOrderTypeError t))
  /\ kind_of (UnexpectedOrderTypeError t : Exn) = KindUnexpectedOrderType
  /\ fallback_reached (fst (fromPostRequest sdk env body)) = false
  /\ generic_attempted (fst (fromPostRequest sdk env body)) = false.
Proof.
  intros Hty P T NE.
  assert (R : fromPostRequest sdk env body
              = ([Called Call_relayParser_parseOrder;
                  Called Call_relayParser_getOrderType;
                  Logged error "Unable to parse Relay order"
                    (ParseContext (UnexpectedOrderTypeError t)
                       (encodedOrder body) (chainId body) (signature body))],
                 Thrown (UnexpectedOrderTypeError t))).
  { unfold fromPostRequest. rewrite Hty. unfold_parser. rewrite P, T.
    destruct t; try reflexivity. congruence. }
  rewrite R. repeat split; reflexivity.
Qed.

(** C8: a submission declared Dutch_V2 calls [CosignedV2DutchOrder.parse]
    and no other SDK entry point; what that call throws is what the caller
    gets, and neither the generic decoder nor the fallback runs. *)
Theorem dutch_v2_uses_v2_decoder_only (body : PostOrderRequestBody) :
  orderType body = Some Dutch_V2 ->
  sdk_calls (fst (fromPostRequest sdk env body))
    = [Call_CosignedV2DutchOrder_parse]
  /\ generic_attempted (fst (fromPostRequest sdk env body)) = false
  /\ fallback_reached (fst (fromPostRequest sdk env body)) = false
  /\ snd (fromPostRequest sdk env body)
     = match CosignedV2DutchOrder_parse sdk (encodedOrder body)
               (chainId body) with
       | inl e => Thrown (SdkFailure e)
       | inr order =>
           Returned (DutchV2Order order (signature body) (chainId body)
                       None None (quoteId body) (requestId body))
       end.
Proof.
  intros Hty. unfold fromPostRequest. rewrite Hty. unfold_parser.
  destruct (CosignedV2DutchOrder_parse sdk (encodedOrder body)
              (chainId body)); repeat split; reflexivity.
Qed.

(** C10: for a submission declared Dutch_V2, a successful V2 parse is
    returned as a DutchV2 order at once; no classifier of the SDK is
    called and the run never ends in [UnexpectedOrderTypeError]. *)
Theorem dutch_v2_never_checks_type (body : PostOrderRequestBody) :
  orderType body = Some Dutch_V2 ->
  (forall order,
      CosignedV2DutchOrder_parse sdk (encodedOrder body) (chainId body)
        = inr order ->
      fromPostRequest sdk env body
      = ([Called Call_CosignedV2DutchOrder_parse],
         Returned (DutchV2Order order (signature body) (chainId body)
                     None None (quoteId body) (requestId body))))
  /\ (forall t,
        snd (fromPostRequest sdk env body)
        <> Thrown (UnexpectedOrderTypeError t))
  /\ ~ In Call_uniswapXParser_getOrderType
         (sdk_calls (fst (fromPostRequest sdk env body)))
  /\ ~ In Call_relayParser_getOrderType
         (sdk_calls (fst (fromPostRequest sdk env body))).
Proof.
  intros Hty. unfold fromPostRequest. rewrite Hty. unfold_parser.
  destruct (CosignedV2DutchOrder_parse sdk (encodedOrder body)
              (chainId body)) as [e|order]; cbn.
  - repeat split; try discriminate; intros [H|[]]; discriminate H.
  - split; [intros o [= <-]; reflexivity|].
    repeat split; try discriminate; intros [H|[]]; discriminate H.
Qed.

(** An undeclared submission is handled by [tryParseDutchOrder] itself. *)
Lemma legacy_is_tryParseDutchOrder (body : PostOrderRequestBody) :
  orderType body = None ->
  fromPostRequest sdk env body
  = tryParseDutchOrder sdk env (encodedOrder body) (signature body)
      (chainId body) (quoteId body).
Proof. unfold fromPostRequest. intros ->. reflexivity. Qed.

(** A Relay run does not look at the correlation ids, and a Dutch, Limit
    or legacy run does not look at the request id. *)
Lemma relay_ignores_correlation_ids (b1 b2 : PostOrderRequestBody) :
  orderType b1 = Some Relay -> orderType b2 = Some Relay ->
  encodedOrder b1 = encodedOrder b2 -> signature b1 = signature b2 ->
  chainId b1 = chainId b2 ->
  fromPostRequest sdk env b1 = fromPostRequest sdk env b2.
Proof.
  unfold fromPostRequest. intros -> -> -> -> ->. reflexivity.
Qed.

Lemma generic_ignores_requestId (b1 b2 : PostOrderRequestBody) :
  orderType b1 = orderType b2 -> orderType b1 <> Some Dutch_V2 ->
  encodedOrder b1 = encodedOrder b2 -> signature b1 = signature b2 ->
  chainId b1 = chainId b2 -> quoteId b1 = quoteId b2 ->
  fromPostRequest sdk env b1 = fromPostRequest sdk env b2.
Proof.
  unfold fromPostRequest. intros <- NE -> -> -> ->.
  destruct (orderType b1) as [[| | |]|]; congruence.
Qed.

(** ** More on the dispatch *)

Lemma snd_bind {A B} (m : M A) (k : A -> M B) :
  snd (bind sdk m k)
  = match snd m with
    | Returned a => snd (k a)
    | Thrown e => Thrown e
    end.
Proof.
  destruct m as [t [a|e]]; cbn; [|reflexivity].
  destruct (k a); reflexivity.
Qed.

Lemma OrderType_eqb_true (a b : OrderType) :
  OrderType_eqb a b = true -> a = b.
Proof. destruct a, b; (reflexivity || discriminate). Qed.

Lemma OrderType_eqb_false (a b : OrderType) :
  OrderType_eqb a b = false -> a <> b.
Proof. destruct a, b; (discriminate || (intros _ E; discriminate E)). Qed.

(** Turns the tests a run has passed into equations on order types. *)
Ltac eqb_facts :=
  repeat match goal with
    | H : OrderType_eqb _ _ = true |- _ => apply OrderType_eqb_true in H
    | H : OrderType_eqb _ _ = false |- _ => apply OrderType_eqb_false in H
    end.

(** X1: A successful decode of a submission that declares its type yields an
    order of that type. *)
Theorem declared_type_is_honoured
    (body : PostOrderRequestBody) (t : OrderType) (o : Order) :
  orderType body = Some t ->
  snd (fromPostRequest sdk env body) = Returned o ->
  Order_orderType o = t.
Proof.
  destruct body as [eo sg ci ty q r]. cbn. intros ->. revert o.
  destruct t; unfold_parser; cbn; repeat case_step;
    intros o' [= <-]; reflexivity.
Qed.

(** X2: A submission that declares no type decodes to a DutchV1 or a Limit
    order only, and to a Limit order exactly when the generic parser
    returned the order and the generic classifier called it Limit. *)
Theorem legacy_resolves_to_dutch_or_limit
    (body : PostOrderRequestBody) (o : Order) :
  orderType body = None ->
  snd (fromPostRequest sdk env body) = Returned o ->
  (Order_orderType o = Dutch \/ Order_orderType o = Limit)
  /\ (Order_orderType o = Limit <->
      uniswapXParser_parseOrder sdk (encodedOrder body) (chainId body)
        = inr (Order_inner o)
      /\ uniswapXParser_getOrderType sdk (Order_inner o) = inr Limit).
Proof.
  destruct body as [eo sg ci ty q r]. cbn. intros ->. revert o.
  unfold_parser; cbn; repeat case_step; intros o' [= <-]; cbn;
    eqb_facts; (split; [auto|]);
    (split; [intros H; first [discriminate H | split; congruence]
            | intros [H1 H2]; congruence]).
Qed.

(** X3: A submission that declares no type never fails with
    [UnexpectedOrderTypeError]: the one the generic decoder throws for an
    order classified Dutch_V2 or Relay is caught by the fallback's [catch],
    and what the caller gets is a failure of the base-schema parser or one
    of the fallback's two errors. *)
Theorem legacy_never_reports_unexpected_type
    (body : PostOrderRequestBody) (e : Exn) :
  orderType body = None ->
  snd (fromPostRequest sdk env body) = Thrown e ->
  (forall t, e <> UnexpectedOrderTypeError t)
  /\ ((exists s,
         SDKDutchOrder_parse sdk (encodedOrder body) (chainId body) = inl s
         /\ e = SdkFailure s)
      \/ e = Error "CUSTOM_REACTOR_ADDRESS is not set"
      \/ e = Error "Invalid reactor address").
Proof.
  intros Hty. unfold fromPostRequest. rewrite Hty.
  rewrite tryParseDutchOrder_outcome.
  destruct (snd (tryParseDutchOrder_try sdk _ _ _ _)) as [o|e1];
    [discriminate|].
  unfold legacy_fallback_spec.
  destruct (SDKDutchOrder_parse sdk _ _) as [s|order].
  - intros [= <-]. split; [discriminate|]. left. eauto.
  - destruct (CUSTOM_REACTOR_ADDRESS env) as [[|c a]|];
      try (intros [= <-]; split; [discriminate|auto]).
    destruct (eq_ignore_case _ _); [discriminate|].
    intros [= <-]. split; [discriminate|auto].
Qed.

(** X4: An [UnexpectedOrderTypeError] reaches the caller only for a submission
    declared Dutch, Limit or Relay, and never names the declared type: it
    names Limit under Dutch and Dutch under Limit. *)
Theorem unexpected_type_names_another_type
    (body : PostOrderRequestBody) (t : OrderType) :
  snd (fromPostRequest sdk env body) = Thrown (UnexpectedOrderTypeError t) ->
  orderType body <> Some t
  /\ (orderType body = Some Dutch /\ t = Limit
      \/ orderType body = Some Limit /\ t = Dutch
      \/ orderType body = Some Relay).
Proof.
  destruct body as [eo sg ci ty q r]. cbn.
  destruct ty as [[| | |]|]; unfold_parser; cbn; repeat case_step;
    intros H; try discriminate H; injection H as <-; eqb_facts;
    (split; [congruence|auto]).
Qed.

(** X5: A failed run ends with an error log that carries the very error
    thrown to the caller, together with the encoded order, the chain id and
    the signature of the submission. *)
Theorem failure_is_logged_last (body : PostOrderRequestBody) (e : Exn) :
  snd (fromPostRequest sdk env body) = Thrown e ->
  last_event (fst (fromPostRequest sdk env body))
  = Some (Logged error (failure_message (orderType body))
            (ParseContext e (encodedOrder body) (chainId body)
               (signature body))).
Proof.
  destruct body as [eo sg ci ty q r]. cbn.
  destruct ty as [[| | |]|]; unfold_parser; cbn; repeat case_step;
    intros H; try discriminate H; injection H as <-; reflexivity.
Qed.


(** X7: A successful run logs nothing at error level. *)
Theorem success_logs_no_error (body : PostOrderRequestBody) (o : Order) :
  snd (fromPostRequest sdk env body) = Returned o ->
  error_logs (fst (fromPostRequest sdk env body)) = [].
Proof.
  destruct body as [eo sg ci ty q r]. cbn.
  destruct ty as [[| | |]|]; unfold_parser; cbn; repeat case_step;
    intros H; try discriminate H; reflexivity.
Qed.

(** X8: Each SDK entry point is called only for the declared types routed to
    it: the relay parser under Relay, the V2 parser under Dutch_V2, the
    generic parser and the base-schema parser under Dutch, Limit or no
    declared type. *)
Theorem sdk_calls_follow_declared_type
    (body : PostOrderRequestBody) (f : SdkEntry) :
  In f (sdk_calls (fst (fromPostRequest sdk env body))) ->
  match f with
  | Call_relayParser_parseOrder | Call_relayParser_getOrderType =>
      orderType body = Some Relay
  | Call_CosignedV2DutchOrder_parse => orderType body = Some Dutch_V2
  | Call_uniswapXParser_parseOrder | Call_uniswapXParser_getOrderType
  | Call_SDKDutchOrder_parse =>
      orderType body = None \/ orderType body = Some Dutch
      \/ orderType body = Some Limit
  end.
Proof.
  destruct body as [eo sg ci ty q r]. cbn.
  destruct ty as [[| | |]|]; unfold_parser; cbn; repeat case_step;
    intros H;
    repeat (destruct H as [<-|H]; [auto|]); destruct H.
Qed.

(** X9: No SDK entry point is called twice in a run, the first call is the
    parser the declared type routes to, and a run makes at most three
    calls. *)
Theorem no_sdk_entry_called_twice (body : PostOrderRequestBody) :
  NoDup (sdk_calls (fst (fromPostRequest sdk env body)))
  /\ (length (sdk_calls (fst (fromPostRequest sdk env body))) <= 3)%nat
  /\ hd_error (sdk_calls (fst (fromPostRequest sdk env body)))
     = Some match orderType body with
            | Some Relay => Call_relayParser_parseOrder
            | Some Dutch_V2 => Call_CosignedV2DutchOrder_parse
            | _ => Call_uniswapXParser_parseOrder
            end.
Proof.
  destruct body as [eo sg ci ty q r]. cbn.
  destruct ty as [[| | |]|]; unfold_parser; cbn; repeat case_step;
    (split; [|split; [lia|reflexivity]]);
    repeat (constructor; [cbn; intuition discriminate|]); constructor.
Qed.

(** ** The configuration and the fallback *)

(** X10: The reactor setting is read only inside the fallback: a run that does
    not reach the fallback is the same run under any configuration. *)
Theorem configuration_unread_without_fallback
    (env' : ProcessEnv) (body : PostOrderRequestBody) :
  fallback_reached (fst (fromPostRequest sdk env body)) = false ->
  fromPostRequest sdk env body = fromPostRequest sdk env' body.
Proof.
  destruct body as [eo sg ci ty q r]. cbn.
  destruct ty as [[| | |]|]; unfold_parser; cbn; repeat case_step;
    intros H; try discriminate H; reflexivity.
Qed.

(** X11: The fallback decodes before it looks at the configuration: when the
    base-schema parser rejects the payload, the run is the same under any
    configuration and, on the fallback path, ends with the parser's own
    failure, also when no reactor address is configured. *)
Theorem fallback_decodes_before_reading_configuration
    (env' : ProcessEnv) (encodedOrder signature : string) (chainId : Z)
    (quoteId : option string) (s : SdkError sdk) :
  SDKDutchOrder_parse sdk encodedOrder chainId = inl s ->
  tryParseDutchOrder sdk env encodedOrder signature chainId quoteId
  = tryParseDutchOrder sdk env' encodedOrder signature chainId quoteId
  /\ (forall err,
        snd (tryParseDutchOrder_try sdk encodedOrder signature chainId
               quoteId) = Thrown err ->
        snd (tryParseDutchOrder sdk env encodedOrder signature chainId
               quoteId) = Thrown (SdkFailure s)).
Proof.
  intros P. split.
  - unfold_parser. rewrite P. cbn. repeat case_step; reflexivity.
  - intros err G. rewrite tryParseDutchOrder_outcome, G.
    unfold legacy_fallback_spec. now rewrite P.
Qed.

Lemma eq_ignore_case_lower (a b : string) :
  eq_ignore_case a b = true -> toLowerCase a = toLowerCase b.
Proof.
  rewrite <- toLowerCase_eq_ignore_case. apply String.eqb_eq.
Qed.

Lemma fallback_spec_case_irrelevant (env' : ProcessEnv) (a a' : string)
    (encodedOrder signature : string) (chainId : Z)
    (quoteId : option string) :
  CUSTOM_REACTOR_ADDRESS env = Some a ->
  CUSTOM_REACTOR_ADDRESS env' = Some a' ->
  eq_ignore_case a a' = true ->
  legacy_fallback_spec sdk env encodedOrder signature chainId quoteId
  = legacy_fallback_spec sdk env' encodedOrder signature chainId quoteId.
Proof.
  intros C C' E. unfold legacy_fallback_spec. rewrite C, C'.
  destruct (SDKDutchOrder_parse sdk encodedOrder chainId) as [s|order];
    [reflexivity|].
  pose proof (eq_ignore_case_lower _ _ E) as L.
  destruct a as [|c a], a' as [|c' a']; try discriminate E; [reflexivity|].
  rewrite <- !toLowerCase_eq_ignore_case, L. reflexivity.
Qed.

(** What [fromPostRequest] hands back is a function of what
    [tryParseDutchOrder] hands back. *)
Lemma fromPostRequest_outcome_congr (env' : ProcessEnv)
    (body : PostOrderRequestBody) :
  snd (tryParseDutchOrder sdk env (encodedOrder body) (signature body)
         (chainId body) (quoteId body))
  = snd (tryParseDutchOrder sdk env' (encodedOrder body) (signature body)
           (chainId body) (quoteId body)) ->
  snd (fromPostRequest sdk env body) = snd (fromPostRequest sdk env' body).
Proof.
  intros H. unfold fromPostRequest.
  destruct (orderType body) as [[| | |]|]; try reflexivity; try exact H;
    unfold tryParseDutchV1Order, tryParseLimitOrder;
    rewrite !(log_and_rethrow _ _
                (fun err => ParseContext err (encodedOrder body)
                              (chainId body) (signature body)));
    rewrite !snd_bind, H; reflexivity.
Qed.

(** X13: An order the fallback accepts is returned to a caller that declared
    Dutch or declared nothing, and is refused, as an unexpected Dutch
    order, to a caller that declared Limit. *)
Theorem fallback_under_declared_type
    (body : PostOrderRequestBody) (err : Exn) (o : Order) :
  snd (tryParseDutchOrder_try sdk (encodedOrder body) (signature body)
         (chainId body) (quoteId body)) = Thrown err ->
  snd (tryParseDutchOrder_catch sdk env err (encodedOrder body)
         (signature body) (chainId body) (quoteId body)) = Returned o ->
  (orderType body = None \/ orderType body = Some Dutch ->
   snd (fromPostRequest sdk env body) = Returned o)
  /\ (orderType body = Some Limit ->
      snd (fromPostRequest sdk env body)
      = Thrown (UnexpectedOrderTypeError Dutch)).
Proof.
  intros G F.
  assert (T : snd (tryParseDutchOrder sdk env (encodedOrder body)
                     (signature body) (chainId body) (quoteId body))
              = Returned o).
  { unfold tryParseDutchOrder. rewrite (tryCatch_thrown _ _ _ G). exact F. }
  assert (D : Order_orderType o = Dutch).
  { rewrite catch_refines_spec in F. unfold legacy_fallback_spec in F.
    destruct (SDKDutchOrder_parse sdk _ _); [discriminate|].
    destruct (CUSTOM_REACTOR_ADDRESS env) as [[|c a]|]; try discriminate.
    destruct (eq_ignore_case _ _); [|discriminate].
    injection F as <-. reflexivity. }
  unfold fromPostRequest. split.
  - intros [-> | ->]; [exact T|].
    unfold tryParseDutchV1Order.
    rewrite (log_and_rethrow _ _
               (fun err => ParseContext err (encodedOrder body)
                             (chainId body) (signature body))).
    rewrite snd_bind, T, D. reflexivity.
  - intros ->. unfold tryParseLimitOrder.
    rewrite (log_and_rethrow _ _
               (fun err => ParseContext err (encodedOrder body)
                             (chainId body) (signature body))).
    rewrite snd_bind, T, D. reflexivity.
Qed.

(** X14: A submission declared Relay succeeds exactly when the relay parser
    returns an order that the relay classifier calls Relay, and the result
    wraps that order; a failure of either SDK call reaches the caller
    unchanged. *)
Theorem relay_succeeds_iff (body : PostOrderRequestBody) (o : Order) :
  orderType body = Some Relay ->
  (snd (fromPostRequest sdk env body) = Returned o
   <-> exists order,
         relayParser_parseOrder sdk (encodedOrder body) (chainId body)
           = inr order
         /\ relayParser_getOrderType sdk order = inr Relay
         /\ o = RelayOrder order (signature body) (chainId body))
  /\ (forall s,
        relayParser_parseOrder sdk (encodedOrder body) (chainId body)
          = inl s ->
        snd (fromPostRequest sdk env body) = Thrown (SdkFailure s))
  /\ (forall order s,
        relayParser_parseOrder sdk (encodedOrder body) (chainId body)
          = inr order ->
        relayParser_getOrderType sdk order = inl s ->
        snd (fromPostRequest sdk env body) = Thrown (SdkFailure s)).
Proof.
  intros Hty. unfold fromPostRequest. rewrite Hty. unfold_parser.
  destruct (relayParser_parseOrder sdk _ _) as [s|order]; cbn.
  - split; [|split; [intros s' [= <-]; reflexivity|discriminate]].
    split; [discriminate|intros (x & H & _); discriminate H].
  - destruct (relayParser_getOrderType sdk order) as [s|t] eqn:T; cbn.
    + split; [|split; [discriminate|]].
      * split; [discriminate|].
        intros (x & [= <-] & H & _). congruence.
      * intros x s' [= <-]. rewrite T. intros [= <-]. reflexivity.
    + split; [|split; [discriminate|]].
      * destruct t; cbn; (split; [intros H; try discriminate H|]).
        -- intros (x & [= <-] & H & _). congruence.
        -- injection H as <-. eauto.
        -- intros (x & [= <-] & H & ->). reflexivity.
        -- intros (x & [= <-] & H & _). congruence.
        -- intros (x & [= <-] & H & _). congruence.
      * intros x s' [= <-]. rewrite T. discriminate.
Qed.

End Properties.

Section TwoConfigurations.

Context (sdk : Sdk).
Variables env env' : ProcessEnv.

(** X12: The case in which the reactor address is configured does not matter:
    two settings equal up to case accept and reject the same submissions,
    with the same results. *)
Theorem configured_address_case_is_irrelevant
    (a a' : string) (body : PostOrderRequestBody) :
  CUSTOM_REACTOR_ADDRESS env = Some a ->
  CUSTOM_REACTOR_ADDRESS env' = Some a' ->
  eq_ignore_case a a' = true ->
  snd (fromPostRequest sdk env body) = snd (fromPostRequest sdk env' body).
Proof.
  intros C C' E. apply fromPostRequest_outcome_congr.
  rewrite (tryParseDutchOrder_outcome sdk env),
          (tryParseDutchOrder_outcome sdk env').
  destruct (snd (tryParseDutchOrder_try sdk _ _ _ _)); [reflexivity|].
  apply (fallback_spec_case_irrelevant sdk env env' a a'); assumption.
Qed.

End TwoConfigurations.

(** ** The theorems at work on the small SDK *)

Lemma legacy_both_fail_reports_fallback_failure_witness :
  snd (fromPostRequest toy_sdk env_unset body_custom_legacy)
    = Thrown (Error "CUSTOM_REACTOR_ADDRESS is not set")
  /\ In (Logged warn
           "Unable to parse legacy Dutch order - trying to parse with custom reactor"
           (ParseContext toy_missing
              "0x03" 1 "0x5167"))
        (fst (fromPostRequest toy_sdk env_unset body_custom_legacy))
  /\ In (Logged error "Unable to parse legacy Dutch order"
           (ParseContext (Error "CUSTOM_REACTOR_ADDRESS is not set")
              "0x03" 1 "0x5167"))
        (fst (fromPostRequest toy_sdk env_unset body_custom_legacy)).
Proof.
  apply (legacy_both_fail_reports_fallback_failure toy_sdk env_unset
           body_custom_legacy toy_missing
           (Error "CUSTOM_REACTOR_ADDRESS is not set"));
    reflexivity.
Defined.

(** C1, as stated, fails: with no declared type, the generic decoder
    rejects the custom reactor, the fallback finds no configured address,
    and the caller receives the fallback's error, not the generic
    decoder's. *)
Lemma legacy_both_fail_counterexample :
  orderType body_custom_legacy = None
  /\ snd (tryParseDutchOrder_try toy_sdk (encodedOrder body_custom_legacy)
            (signature body_custom_legacy) (chainId body_custom_legacy)
            (quoteId body_custom_legacy))
     = Thrown toy_missing
  /\ snd (tryParseDutchOrder_fallback toy_sdk env_unset
            toy_missing
            (encodedOrder body_custom_legacy) (signature body_custom_legacy)
            (chainId body_custom_legacy) (quoteId body_custom_legacy))
     = Thrown (Error "CUSTOM_REACTOR_ADDRESS is not set")
  /\ snd (fromPostRequest toy_sdk env_unset body_custom_legacy)
     = Thrown (Error "CUSTOM_REACTOR_ADDRESS is not set")
  /\ snd (fromPostRequest toy_sdk env_unset body_custom_legacy)
     <> Thrown toy_missing.
Proof. repeat split; try reflexivity. discriminate. Qed.

(** C2, as stated, fails: a submission declared Dutch whose reactor the
    generic decoder rejects runs the fallback and is accepted by it. *)
Lemma declared_dutch_reaches_fallback :
  orderType body_custom_declared_dutch = Some Dutch
  /\ fallback_reached
       (fst (fromPostRequest toy_sdk env_custom body_custom_declared_dutch))
     = true
  /\ In Call_SDKDutchOrder_parse
       (sdk_calls
          (fst (fromPostRequest toy_sdk env_custom
                  body_custom_declared_dutch)))
  /\ snd (fromPostRequest toy_sdk env_custom body_custom_declared_dutch)
     = Returned (@DutchV1Order toy_sdk toy_custom "0x5167" 1
                   (Some "quote-1")).
Proof.
  split; [reflexivity|]. split; [reflexivity|]. split; [|reflexivity].
  right. left. reflexivity.
Qed.

Lemma fallback_succeeds_iff_reactor_matches_witness :
  (snd (tryParseDutchOrder toy_sdk env_custom "0x03" "0x5167" 1 None)
     = Returned (@DutchV1Order toy_sdk toy_custom "0x5167" 1 None)
   <-> eq_ignore_case custom_reactor
         "0xabcdef0123456789abcdef0123456789abcdef01" = true)
  /\ ((exists o,
         snd (tryParseDutchOrder toy_sdk env_custom "0x03" "0x5167" 1 None)
         = Returned o)
      -> eq_ignore_case custom_reactor
           "0xabcdef0123456789abcdef0123456789abcdef01" = true)
  /\ (eq_ignore_case custom_reactor
        "0xabcdef0123456789abcdef0123456789abcdef01" = false ->
      snd (tryParseDutchOrder toy_sdk env_custom "0x03" "0x5167" 1 None)
        = Thrown (Error "Invalid reactor address")
      /\ kind_of (Error "Invalid reactor address" : Exn toy_sdk)
         = KindFallbackReactorMismatch).
Proof.
  apply (fallback_succeeds_iff_reactor_matches toy_sdk env_custom
           "0x03" "0x5167" 1 None toy_missing
           toy_custom "0xabcdef0123456789abcdef0123456789abcdef01");
    [reflexivity | reflexivity | reflexivity | discriminate].
Defined.

Lemma fallback_without_configuration_witness :
  exists e : Exn toy_sdk,
    snd (tryParseDutchOrder toy_sdk env_unset "0x03" "0x5167" 1 None)
      = Thrown e
    /\ e = Error "CUSTOM_REACTOR_ADDRESS is not set"
    /\ kind_of e = KindFallbackConfigurationMissing
    /\ kind_of e <> KindDecodeFailure
    /\ (forall s, e <> SdkFailure s).
Proof.
  apply (fallback_without_configuration toy_sdk env_unset
           "0x03" "0x5167" 1 None toy_missing
           toy_custom);
    reflexivity.
Defined.

(** The accepted order has an empty decay window, and the generic
    classifier calls such an order a Limit order. *)
Lemma fallback_result_is_DutchV1_witness :
  (toy_decayStartTime toy_custom_flat = toy_decayEndTime toy_custom_flat
   /\ uniswapXParser_getOrderType toy_sdk toy_custom_flat = inr Limit)
  /\ Order_orderType (@DutchV1Order toy_sdk toy_custom_flat "0x5167" 1 None)
     = Dutch
  /\ Order_orderType (@DutchV1Order toy_sdk toy_custom_flat "0x5167" 1 None)
     <> Limit
  /\ exists order,
       SDKDutchOrder_parse toy_sdk "0x04" 1 = inr order
       /\ @DutchV1Order toy_sdk toy_custom_flat "0x5167" 1 None
          = @DutchV1Order toy_sdk order "0x5167" 1 None.
Proof.
  split; [split; reflexivity|].
  apply (fallback_result_is_DutchV1 toy_sdk env_custom
           toy_missing "0x04" "0x5167" 1 None
           (@DutchV1Order toy_sdk toy_custom_flat "0x5167" 1 None)).
  reflexivity.
Defined.

Lemma decode_determined_by_payload_and_type_witness :
  same_decode (snd (fromPostRequest toy_sdk env_unset body_dutch_as_dutch))
              (snd (fromPostRequest toy_sdk env_unset body_dutch_resent))
  /\ (signature body_dutch_as_dutch = signature body_dutch_resent ->
      quoteId body_dutch_as_dutch = quoteId body_dutch_resent ->
      requestId body_dutch_as_dutch = requestId body_dutch_resent ->
      fromPostRequest toy_sdk env_unset body_dutch_as_dutch
      = fromPostRequest toy_sdk env_unset body_dutch_resent).
Proof.
  apply (decode_determined_by_payload_and_type toy_sdk env_unset
           body_dutch_as_dutch body_dutch_resent);
    reflexivity.
Defined.

(** C5, as stated, fails: the same encoded order on the same chain is
    accepted when declared Dutch and rejected when declared Limit. *)
Lemma same_payload_different_outcome :
  encodedOrder body_dutch_as_dutch = encodedOrder body_dutch_as_limit
  /\ chainId body_dutch_as_dutch = chainId body_dutch_as_limit
  /\ snd (fromPostRequest toy_sdk env_unset body_dutch_as_dutch)
     = Returned (@DutchV1Order toy_sdk toy_dutch "0x5167" 1 None)
  /\ snd (fromPostRequest toy_sdk env_unset body_dutch_as_limit)
     = Thrown (UnexpectedOrderTypeError Dutch)
  /\ ~ same_decode
        (snd (fromPostRequest toy_sdk env_unset body_dutch_as_dutch))
        (snd (fromPostRequest toy_sdk env_unset body_dutch_as_limit)).
Proof.
  repeat split; try reflexivity.
  intros H. exact H.
Qed.

Lemma decoded_order_carries_witness :
  Order_signature
    (@DutchV2Order toy_sdk toy_v2 "0x5167" 1 None None (Some "quote-1")
       (Some "request-1")) = signature body_v2
  /\ Order_chainId
       (@DutchV2Order toy_sdk toy_v2 "0x5167" 1 None None (Some "quote-1")
          (Some "request-1")) = chainId body_v2
  /\ (Some "quote-1" = quoteId body_v2
      /\ Some "request-1" = requestId body_v2)
  /\ (Order_orderType
        (@DutchV2Order toy_sdk toy_v2 "0x5167" 1 None None (Some "quote-1")
           (Some "request-1")) <> Dutch_V2 ->
      Order_requestId
        (@DutchV2Order toy_sdk toy_v2 "0x5167" 1 None None (Some "quote-1")
           (Some "request-1")) = None)
  /\ (Order_orderType
        (@DutchV2Order toy_sdk toy_v2 "0x5167" 1 None None (Some "quote-1")
           (Some "request-1")) = Relay ->
      Order_quoteId
        (@DutchV2Order toy_sdk toy_v2 "0x5167" 1 None None (Some "quote-1")
           (Some "request-1")) = None).
Proof.
  apply (decoded_order_carries toy_sdk env_unset body_v2
           (@DutchV2Order toy_sdk toy_v2 "0x5167" 1 None None
              (Some "quote-1") (Some "request-1"))).
  reflexivity.
Defined.

(** C6, as stated, fails: a relay submission carrying a quote id and a
    request id decodes to a Relay order that holds neither, and a legacy
    submission's request id is dropped as well. *)
Lemma relay_order_drops_correlation_ids :
  quoteId body_relay = Some "quote-1"
  /\ requestId body_relay = Some "request-1"
  /\ snd (fromPostRequest toy_sdk env_unset body_relay)
     = Returned (@RelayOrder toy_sdk toy_relay "0x5167" 1)
  /\ Order_quoteId (@RelayOrder toy_sdk toy_relay "0x5167" 1)
     <> quoteId body_relay
  /\ Order_requestId (@RelayOrder toy_sdk toy_relay "0x5167" 1)
     <> requestId body_relay
  /\ fromPostRequest toy_sdk env_unset body_relay
     = fromPostRequest toy_sdk env_unset
         (toy_body "0x06" (Some Relay) None None).
Proof. repeat split; try reflexivity; discriminate. Qed.

Lemma relay_type_mismatch_is_terminal_witness :
  fromPostRequest toy_sdk env_custom body_dutch_as_relay
  = ([Called Call_relayParser_parseOrder;
      Called Call_relayParser_getOrderType;
      Logged error "Unable to parse Relay order"
        (ParseContext (UnexpectedOrderTypeError Dutch) "0x01" 1 "0x5167")],
     Thrown (UnexpectedOrderTypeError Dutch))
  /\ kind_of (UnexpectedOrderTypeError Dutch : Exn toy_sdk)
     = KindUnexpectedOrderType
  /\ fallback_reached
       (fst (fromPostRequest toy_sdk env_custom body_dutch_as_relay)) = false
  /\ generic_attempted
       (fst (fromPostRequest toy_sdk env_custom body_dutch_as_relay)) = false.
Proof.
  apply (relay_type_mismatch_is_terminal toy_sdk env_custom
           body_dutch_as_relay toy_dutch Dutch);
    [reflexivity | reflexivity | reflexivity | discriminate].
Defined.

(** A V1-shaped payload declared Dutch_V2 fails in the V2 decoder and goes
    no further. *)
Lemma dutch_v2_uses_v2_decoder_only_witness :
  sdk_calls (fst (fromPostRequest toy_sdk env_custom body_dutch_as_v2))
    = [Call_CosignedV2DutchOrder_parse]
  /\ generic_attempted
       (fst (fromPostRequest toy_sdk env_custom body_dutch_as_v2)) = false
  /\ fallback_reached
       (fst (fromPostRequest toy_sdk env_custom body_dutch_as_v2)) = false
  /\ snd (fromPostRequest toy_sdk env_custom body_dutch_as_v2)
     = Thrown (@SdkFailure toy_sdk "unexpected shape").
Proof.
  apply (dutch_v2_uses_v2_decoder_only toy_sdk env_custom body_dutch_as_v2).
  reflexivity.
Defined.

Lemma dutch_v2_never_checks_type_witness :
  (forall order,
      CosignedV2DutchOrder_parse toy_sdk (encodedOrder body_v2)
        (chainId body_v2) = inr order ->
      fromPostRequest toy_sdk env_unset body_v2
      = ([Called Call_CosignedV2DutchOrder_parse],
         Returned (DutchV2Order order (signature body_v2) (chainId body_v2)
                     None None (quoteId body_v2) (requestId body_v2))))
  /\ (forall t,
        snd (fromPostRequest toy_sdk env_unset body_v2)
        <> Thrown (UnexpectedOrderTypeError t))
  /\ ~ In Call_uniswapXParser_getOrderType
         (sdk_calls (fst (fromPostRequest toy_sdk env_unset body_v2)))
  /\ ~ In Call_relayParser_getOrderType
         (sdk_calls (fst (fromPostRequest toy_sdk env_unset body_v2))).
Proof.
  apply (dutch_v2_never_checks_type toy_sdk env_unset body_v2).
  reflexivity.
Defined.

(** ** More runs on the small SDK *)

Lemma declared_type_is_honoured_witness :
  Order_orderType (@DutchV1Order toy_sdk toy_dutch "0x5167" 1 None) = Dutch.
Proof.
  apply (declared_type_is_honoured toy_sdk env_unset body_dutch_as_dutch
           Dutch (@DutchV1Order toy_sdk toy_dutch "0x5167" 1 None));
    reflexivity.
Defined.

Lemma legacy_resolves_to_dutch_or_limit_witness :
  (Order_orderType (@LimitOrder toy_sdk toy_flat "0x5167" 1 None) = Dutch
   \/ Order_orderType (@LimitOrder toy_sdk toy_flat "0x5167" 1 None) = Limit)
  /\ (Order_orderType (@LimitOrder toy_sdk toy_flat "0x5167" 1 None) = Limit
      <-> uniswapXParser_parseOrder toy_sdk (encodedOrder body_flat_legacy)
            (chainId body_flat_legacy)
          = inr (Order_inner (@LimitOrder toy_sdk toy_flat "0x5167" 1 None))
          /\ uniswapXParser_getOrderType toy_sdk
               (Order_inner (@LimitOrder toy_sdk toy_flat "0x5167" 1 None))
             = inr Limit).
Proof.
  apply (legacy_resolves_to_dutch_or_limit toy_sdk env_unset
           body_flat_legacy (@LimitOrder toy_sdk toy_flat "0x5167" 1 None));
    reflexivity.
Defined.

(** A V2 order sent without a declared type: the generic decoder's
    [UnexpectedOrderTypeError] is replaced by the fallback's failure. *)
Lemma legacy_never_reports_unexpected_type_witness :
  snd (tryParseDutchOrder_try toy_sdk "0x05" "0x5167" 1 None)
    = Thrown (UnexpectedOrderTypeError Dutch_V2)
  /\ (forall t,
        @SdkFailure toy_sdk "unexpected shape" <> UnexpectedOrderTypeError t)
  /\ ((exists s,
         SDKDutchOrder_parse toy_sdk (encodedOrder body_v2_legacy)
           (chainId body_v2_legacy) = inl s
         /\ @SdkFailure toy_sdk "unexpected shape" = SdkFailure s)
      \/ @SdkFailure toy_sdk "unexpected shape"
         = Error "CUSTOM_REACTOR_ADDRESS is not set"
      \/ @SdkFailure toy_sdk "unexpected shape"
         = Error "Invalid reactor address").
Proof.
  split; [reflexivity|].
  apply (legacy_never_reports_unexpected_type toy_sdk env_unset
           body_v2_legacy (@SdkFailure toy_sdk "unexpected shape"));
    reflexivity.
Defined.

Lemma unexpected_type_names_another_type_witness :
  orderType body_flat_as_dutch <> Some Limit
  /\ (orderType body_flat_as_dutch = Some Dutch /\ Limit = Limit
      \/ orderType body_flat_as_dutch = Some Limit /\ Limit = Dutch
      \/ orderType body_flat_as_dutch = Some Relay).
Proof.
  apply (unexpected_type_names_another_type toy_sdk env_unset
           body_flat_as_dutch Limit).
  reflexivity.
Defined.

Lemma failure_is_logged_last_witness :
  last_event (fst (fromPostRequest toy_sdk env_custom body_garbage_legacy))
  = Some (Logged error "Unable to parse legacy Dutch order"
            (ParseContext (@SdkFailure toy_sdk "invalid order") "0xff" 1
               "0x5167")).
Proof.
  apply (failure_is_logged_last toy_sdk env_custom body_garbage_legacy
           (@SdkFailure toy_sdk "invalid order")).
  reflexivity.
Defined.

(** A run accepted by the fallback logs its warning and no error. *)
Lemma success_logs_no_error_witness :
  fallback_reached
    (fst (fromPostRequest toy_sdk env_custom body_custom_legacy)) = true
  /\ error_logs (fst (fromPostRequest toy_sdk env_custom body_custom_legacy))
     = [].
Proof.
  split; [reflexivity|].
  apply (success_logs_no_error toy_sdk env_custom body_custom_legacy
           (@DutchV1Order toy_sdk toy_custom "0x5167" 1 (Some "quote-1"))).
  reflexivity.
Defined.

Lemma sdk_calls_follow_declared_type_witness :
  orderType body_dutch_as_relay = Some Relay.
Proof.
  apply (sdk_calls_follow_declared_type toy_sdk env_custom
           body_dutch_as_relay Call_relayParser_getOrderType).
  right. left. reflexivity.
Defined.

Lemma configuration_unread_without_fallback_witness :
  fromPostRequest toy_sdk env_unset body_dutch_as_dutch
  = fromPostRequest toy_sdk env_custom body_dutch_as_dutch.
Proof.
  apply (configuration_unread_without_fallback toy_sdk env_unset env_custom
           body_dutch_as_dutch).
  reflexivity.
Defined.

Lemma fallback_decodes_before_reading_configuration_witness :
  tryParseDutchOrder toy_sdk env_unset "0xff" "0x5167" 1 None
  = tryParseDutchOrder toy_sdk env_custom "0xff" "0x5167" 1 None
  /\ (forall err,
        snd (tryParseDutchOrder_try toy_sdk "0xff" "0x5167" 1 None)
          = Thrown err ->
        snd (tryParseDutchOrder toy_sdk env_unset "0xff" "0x5167" 1 None)
          = Thrown (@SdkFailure toy_sdk "invalid order")).
Proof.
  apply (fallback_decodes_before_reading_configuration toy_sdk env_unset
           env_custom "0xff" "0x5167" 1 None "invalid order").
  reflexivity.
Defined.

Lemma configured_address_case_is_irrelevant_witness :
  snd (fromPostRequest toy_sdk env_custom body_custom_legacy)
  = snd (fromPostRequest toy_sdk env_custom_mixed body_custom_legacy).
Proof.
  apply (configured_address_case_is_irrelevant toy_sdk env_custom
           env_custom_mixed "0xabcdef0123456789abcdef0123456789abcdef01"
           custom_reactor body_custom_legacy);
    reflexivity.
Defined.

Lemma fallback_under_declared_type_witness :
  (orderType body_custom_as_limit = None
   \/ orderType body_custom_as_limit = Some Dutch ->
   snd (fromPostRequest toy_sdk env_custom body_custom_as_limit)
   = Returned (@DutchV1Order toy_sdk toy_custom_flat "0x5167" 1 None))
  /\ (orderType body_custom_as_limit = Some Limit ->
      snd (fromPostRequest toy_sdk env_custom body_custom_as_limit)
      = Thrown (UnexpectedOrderTypeError Dutch)).
Proof.
  apply (fallback_under_declared_type toy_sdk env_custom
           body_custom_as_limit toy_missing
           (@DutchV1Order toy_sdk toy_custom_flat "0x5167" 1 None));
    reflexivity.
Defined.

Lemma relay_succeeds_iff_witness :
  (snd (fromPostRequest toy_sdk env_unset body_relay)
     = Returned (@RelayOrder toy_sdk toy_relay "0x5167" 1)
   <-> exists order,
         relayParser_parseOrder toy_sdk (encodedOrder body_relay)
           (chainId body_relay) = inr order
         /\ relayParser_getOrderType toy_sdk order = inr Relay
         /\ @RelayOrder toy_sdk toy_relay "0x5167" 1
            = RelayOrder order (signature body_relay) (chainId body_relay))
  /\ (forall s,
        relayParser_parseOrder toy_sdk (encodedOrder body_relay)
          (chainId body_relay) = inl s ->
        snd (fromPostRequest toy_sdk env_unset body_relay)
        = Thrown (SdkFailure s))
  /\ (forall order s,
        relayParser_parseOrder toy_sdk (encodedOrder body_relay)
          (chainId body_relay) = inr order ->
        relayParser_getOrderType toy_sdk order = inl s ->
        snd (fromPostRequest toy_sdk env_unset body_relay)
        = Thrown (SdkFailure s)).
Proof.
  apply (relay_succeeds_iff toy_sdk env_unset body_relay
           (@RelayOrder toy_sdk toy_relay "0x5167" 1)).
  reflexivity.
Defined.

(** ** The step-function handler *)

Section SfnProperties.

Context {SfnStateInputOutput CInj RInj Thrown : Type}.
Variable NODE_ENV : option string.
Variable toString : Sfn.Exn Thrown -> string.
Variable this : Sfn.SfnLambdaHandler SfnStateInputOutput CInj RInj Thrown.

#[local] Abbreviation run := (Sfn.handler NODE_ENV toString this).

Ltac unfold_sfn :=
  unfold Sfn.handler, Sfn.buildHandler, Sfn.validateInput, Eff.bind,
    Eff.try_catch, Eff.perform, Eff.emit, Eff.ret, Eff.raise in *.

Ltac sfn_step :=
  match goal with
  | |- context [match Sfn.inputSchema this with _ => _ end] =>
      destruct (Sfn.inputSchema this) eqn:?
  | |- context [match Sfn.error ?v with _ => _ end] =>
      destruct (Sfn.error v) eqn:?
  | |- context [match ?x with inl _ => _ | inr _ => _ end] =>
      destruct x eqn:?
  end; cbn in *.

(** X15: An input the schema refuses ends the run at once: the handler logs the
    validation result and throws [SfnInputValidationError] with Joi's
    message, and neither the injector nor [handleRequest] is touched. *)
Theorem sfn_invalid_input_stops_the_run
    (input : SfnStateInputOutput)
    (schema : Sfn.ObjectSchema SfnStateInputOutput)
    (err : Sfn.ValidationError) :
  Sfn.inputSchema this = Some schema ->
  Sfn.error (schema input) = Some err ->
  snd (run input) = Eff.Raise (Sfn.SfnInputValidationError (Sfn.message err))
  /\ Sfn.calls (fst (run input)) = [Sfn.Schema_validate]
  /\ In (Sfn.LogInfo (schema input) "Input failed validation")
        (fst (run input)).
Proof.
  intros S E. unfold_sfn. rewrite S. cbn. rewrite E. cbn.
  repeat split. right. right. left. reflexivity.
Qed.

(** X16: The injector is awaited exactly when the input was accepted, that is
    when the handler has no schema or its schema reports no error for the
    input; a handler without schema never calls a validator. *)
Theorem sfn_injector_awaited_iff_input_accepted
    (input : SfnStateInputOutput) :
  (In Sfn.Await_injectorPromise (Sfn.calls (fst (run input)))
   <-> Sfn.inputSchema this = None
       \/ exists schema,
            Sfn.inputSchema this = Some schema
            /\ Sfn.error (schema input) = None)
  /\ (Sfn.inputSchema this = None ->
      ~ In Sfn.Schema_validate (Sfn.calls (fst (run input)))).
Proof.
  unfold_sfn. split.
  - repeat sfn_step;
      (split;
       [ intros H; cbn in H;
         repeat (destruct H as [H|H]; [try discriminate H|]);
         try contradiction; eauto
       | intros [H | (sc & H1 & H2)];
         try discriminate H; try discriminate H1;
         try (injection H1 as <-); try congruence; cbn; auto 10 ]).
  - intros ->. cbn. repeat sfn_step; cbn; intuition discriminate.
Qed.

(** X17: When building the request-scoped values fails, the failure is logged
    with the input and replaced by an [InjectionError] whose message embeds
    the failure's text; [handleRequest] is not called. *)
Theorem sfn_injection_failure_is_wrapped
    (input : SfnStateInputOutput)
    (injector : Sfn.SfnInjector SfnStateInputOutput CInj RInj Thrown)
    (c : CInj) (t : Thrown) :
  snd (Sfn.validateInput this input) = Eff.Ok input ->
  Sfn.injectorPromise this = inr injector ->
  Sfn.getContainerInjected injector = inr c ->
  Sfn.getRequestInjected injector c input = inl t ->
  snd (run input)
  = Eff.Raise
      (Sfn.InjectionError
         ("Unexpected error building request injected:" ++ Sfn.newline
          ++ toString (Sfn.Rejection t))%string)
  /\ ~ In Sfn.HandleRequest (Sfn.calls (fst (run input)))
  /\ In (Sfn.LogError (Sfn.Rejection t) input
           "Unexpected error building request injected.")
        (fst (run input)).
Proof.
  intros V P C R. unfold_sfn. rewrite P. cbn. rewrite C. cbn.
  rewrite R. cbn in *.
  repeat sfn_step; try discriminate V;
    (split; [reflexivity|]); (split; [cbn; intuition discriminate|]);
    cbn; auto 10.
Qed.

(** X18: A rejected injector promise and a failing [getContainerInjected] are
    outside the handler's [try]: they reach the caller as they are, not as
    an [InjectionError], and the run stops there. *)
Theorem sfn_injector_failures_are_not_wrapped
    (input : SfnStateInputOutput) (t : Thrown) :
  snd (Sfn.validateInput this input) = Eff.Ok input ->
  Sfn.injectorPromise this = inl t
  \/ (exists injector,
        Sfn.injectorPromise this = inr injector
        /\ Sfn.getContainerInjected injector = inl t) ->
  snd (run input) = Eff.Raise (Sfn.Rejection t)
  /\ ~ In Sfn.Injector_getRequestInjected (Sfn.calls (fst (run input)))
  /\ ~ In Sfn.HandleRequest (Sfn.calls (fst (run input))).
Proof.
  intros V [P | (injector & P & C)]; unfold_sfn; rewrite P; cbn;
    rewrite ?C; cbn in *;
    repeat sfn_step; try discriminate V;
    (split; [reflexivity|]); split; cbn; intuition discriminate.
Qed.

(** X19: [handleRequest] is called exactly when the input passed validation, the
    injector resolved and both injected values were built; the run then
    ends as [handleRequest] ends, with its output or with what it threw,
    unchanged. *)
Theorem sfn_handleRequest_runs_iff (input : SfnStateInputOutput) :
  (In Sfn.HandleRequest (Sfn.calls (fst (run input)))
   <-> exists injector c r,
         snd (Sfn.validateInput this input) = Eff.Ok input
         /\ Sfn.injectorPromise this = inr injector
         /\ Sfn.getContainerInjected injector = inr c
         /\ Sfn.getRequestInjected injector c input = inr r)
  /\ (forall injector c r,
        snd (Sfn.validateInput this input) = Eff.Ok input ->
        Sfn.injectorPromise this = inr injector ->
        Sfn.getContainerInjected injector = inr c ->
        Sfn.getRequestInjected injector c input = inr r ->
        snd (run input)
        = match Sfn.handleRequest this c r with
          | inl t => Eff.Raise (Sfn.Rejection t)
          | inr out => Eff.Ok out
          end).
Proof.
  split.
  - unfold_sfn. repeat sfn_step;
      (split;
       [ intros H; cbn in H;
         repeat (destruct H as [H|H]; [try discriminate H|]);
         try contradiction; eauto 10
       | intros (inj' & c' & r' & V & P & C & R);
         try discriminate V; try discriminate P;
         try (injection P as <-); try congruence;
         cbn; auto 10 ]).
  - intros injector c r V P C R. unfold_sfn. rewrite P. cbn.
    rewrite C. cbn. rewrite R. cbn in *.
    repeat sfn_step; try discriminate V; reflexivity.
Qed.

(** X20: The collaborators are called in one fixed order, validation first and
    [handleRequest] last, and a run stops at the first that fails: the
    calls of a run are a prefix of the planned calls, the whole plan when
    the run succeeds. *)
Theorem sfn_calls_are_a_prefix_of_the_plan (input : SfnStateInputOutput) :
  (exists n,
      Sfn.calls (fst (run input)) = firstn n (Sfn.planned_calls this))
  /\ (forall out,
        snd (run input) = Eff.Ok out ->
        Sfn.calls (fst (run input)) = Sfn.planned_calls this).
Proof.
  unfold Sfn.planned_calls. unfold_sfn. split.
  - repeat sfn_step;
      first [ now exists 0%nat | now exists 1%nat | now exists 2%nat
            | now exists 3%nat | now exists 4%nat | now exists 5%nat ].
  - intros out. repeat sfn_step; intros H; try discriminate H; reflexivity.
Qed.

End SfnProperties.

Lemma sfn_invalid_input_stops_the_run_witness :
  snd (Sfn.handler (Some "test") Sfn.toy_toString Sfn.toy_handler "")
    = Eff.Raise (Sfn.SfnInputValidationError "orderHash is required")
  /\ Sfn.calls
       (fst (Sfn.handler (Some "test") Sfn.toy_toString Sfn.toy_handler ""))
     = [Sfn.Schema_validate]
  /\ In (Sfn.LogInfo (Sfn.toy_schema "") "Input failed validation")
        (fst (Sfn.handler (Some "test") Sfn.toy_toString Sfn.toy_handler "")).
Proof.
  apply (sfn_invalid_input_stops_the_run (Some "test") Sfn.toy_toString
           Sfn.toy_handler "" Sfn.toy_schema
           {| Sfn.message := "orderHash is required" |});
    reflexivity.
Defined.

Lemma sfn_injection_failure_is_wrapped_witness :
  snd (Sfn.handler None Sfn.toy_toString Sfn.toy_handler "unknown")
  = Eff.Raise
      (Sfn.InjectionError
         ("Unexpected error building request injected:" ++ Sfn.newline
          ++ "Error: order not found")%string)
  /\ ~ In Sfn.HandleRequest
         (Sfn.calls
            (fst (Sfn.handler None Sfn.toy_toString Sfn.toy_handler
                    "unknown")))
  /\ In (Sfn.LogError (Sfn.Rejection "order not found") "unknown"
           "Unexpected error building request injected.")
        (fst (Sfn.handler None Sfn.toy_toString Sfn.toy_handler "unknown")).
Proof.
  apply (sfn_injection_failure_is_wrapped None Sfn.toy_toString
           Sfn.toy_handler "unknown" Sfn.toy_injector 7%nat
           "order not found");
    reflexivity.
Defined.

Lemma sfn_injector_failures_are_not_wrapped_witness :
  snd (Sfn.handler None Sfn.toy_toString Sfn.toy_handler_unresolved "0xabc")
  = Eff.Raise (Sfn.Rejection "container build failed")
  /\ ~ In Sfn.Injector_getRequestInjected
         (Sfn.calls
            (fst (Sfn.handler None Sfn.toy_toString
                    Sfn.toy_handler_unresolved "0xabc")))
  /\ ~ In Sfn.HandleRequest
         (Sfn.calls
            (fst (Sfn.handler None Sfn.toy_toString
                    Sfn.toy_handler_unresolved "0xabc"))).
Proof.
  apply (sfn_injector_failures_are_not_wrapped None Sfn.toy_toString
           Sfn.toy_handler_unresolved "0xabc" "container build failed");
    [reflexivity | left; reflexivity].
Defined.

(** ** The get-orders handler *)

Section GetOrdersProperties.

Context {OrderEntity QueryFilters Thrown : Type}.
Variable as_Error : Thrown -> option string.

#[local] Abbreviation Params :=
  (GetOrders.HandleRequestParams OrderEntity QueryFilters Thrown).

(** X21: The handler never throws: whatever the database layer does, the run
    ends with a reply whose status is 200 or 500, after exactly one query
    made with the injected limit and filters. *)
Theorem getOrders_handler_never_throws (params : Params) :
  (exists reply,
      snd (GetOrders.handleRequest as_Error params) = Eff.Ok reply
      /\ (GetOrders.statusCode_of reply = 200
          \/ GetOrders.statusCode_of reply = 500))
  /\ fst (GetOrders.handleRequest as_Error params)
     = [GetOrders.GetOrdersCalled
          (GetOrders.limit _ (GetOrders.requestInjected _ _ _ params))
          (GetOrders.queryFilters _ (GetOrders.requestInjected _ _ _ params))].
Proof.
  unfold GetOrders.handleRequest, Eff.try_catch, Eff.bind, Eff.perform,
    Eff.ret.
  destruct (GetOrders.getOrders _ _ _ _ _ _) as [e|orders]; cbn;
    (split; [eexists; split; [reflexivity|cbn; auto]|reflexivity]).
Qed.

(** X22: The reply is 200 with the rows exactly as the database returned them
    (missing rows included) when the query succeeds, and otherwise 500 with
    the thrown value's message as error code when that value is an [Error]
    and with no error code when it is not. *)
Theorem getOrders_reply_reflects_the_database (params : Params) :
  (forall orders,
      snd (GetOrders.handleRequest as_Error params)
        = Eff.Ok (GetOrders.Response 200 orders)
      <-> GetOrders.db_answer params = inr orders)
  /\ (forall code,
        snd (GetOrders.handleRequest as_Error params)
          = Eff.Ok (GetOrders.ErrorResponse 500 code)
        <-> exists e, GetOrders.db_answer params = inl e /\ code = as_Error e)
  /\ (forall status orders,
        snd (GetOrders.handleRequest as_Error params)
          = Eff.Ok (GetOrders.Response status orders) -> status = 200).
Proof.
  unfold GetOrders.db_answer, GetOrders.handleRequest, Eff.try_catch, Eff.bind,
    Eff.perform, Eff.ret.
  destruct (GetOrders.getOrders _ _ _ _ _ _) as [e|orders]; cbn.
  - split; [intros o; split; discriminate|].
    split; [|discriminate].
    intros code; split.
    + intros [= <-]. eauto.
    + intros (e' & [= <-] & ->). reflexivity.
  - split; [intros o; split; intros [= <-]; reflexivity|].
    split; [|intros st o [= <- _]; reflexivity].
    intros code; split; [discriminate|].
    intros (e' & H & _). discriminate H.
Qed.

End GetOrdersProperties.

